(** * Route manager: validators, route-table parser, refresh cycle, add-route

    A shallow embedding of the route-table core of [src/main.py]:
    [validate_ipv4], [validate_subnet_mask], [log_command],
    [save_added_routes], [RouteManagerApp.parse_route_print],
    [RouteManagerApp.get_persistent_routes], [RouteManagerApp.refresh_routes],
    [RouteManagerApp.update_tab_counts], [RouteManagerApp.filter_routes], the
    [do_add] closure of [RouteManagerApp.show_add_route_dialog] and the
    [do_delete] closure of [RouteManagerApp.show_delete_route_dialog].

    Conventions.
    - A Python [str] is a [string]; its characters are the code points below
      256.  On that range [str.isspace] and the regular expression class [\d]
      are the finite sets written out in [is_space] and [is_digit].
    - A Python [int] is a [Z].
    - A Python [dict] with string keys is a [gmap string _]; a [set] of strings
      is a [gset string]; [d.get(k, default)] is [default_get].
    - A Python exception is the [Raise] result of [res]; stateful code runs in
      the monad [M], whose state survives a raise (Python keeps the mutations
      made before an exception).
    - The operating system, the clock, the operator answering dialogs and
      the file system are the oracles of [Env].  A file opened for writing
      may fail with [OSError] at [open] or at a later write; the state keeps
      what reached the file. *)

From Stdlib Require Import ZArith Ascii.
From Stdlib Require String.
From stdpp Require Import base option list strings pretty gmap.

(** ** Results and exceptions *)

Inductive exn : Type :=
| ValueError
| IndexError
| TimeoutExpired (msg : string)
| OSError (msg : string).

Inductive res (A : Type) : Type :=
| Ok (a : A)
| Raise (e : exn).
Arguments Ok {A} a.
Arguments Raise {A} e.

Global Instance res_ret : MRet res := fun _ a => Ok a.
Global Instance res_bind : MBind res := fun _ _ f m =>
  match m with
  | Ok a => f a
  | Raise e => Raise e
  end.

(** ** Python string primitives *)

Definition nl : string := String (ascii_of_nat 10) "".

(** [str.isspace] on the code points below 256: TAB, LF, VT, FF, CR,
    FS, GS, RS, US, SPACE, NEL (0x85) and NBSP (0xA0). *)
Definition is_space (c : ascii) : bool :=
  bool_decide (nat_of_ascii c ∈ [9; 10; 11; 12; 13; 28; 29; 30; 31; 32; 133; 160]).

(** The class [\d] on the code points below 256: the ten ASCII digits. *)
Definition is_digit (c : ascii) : bool :=
  (48 <=? nat_of_ascii c) && (nat_of_ascii c <=? 57).

Definition digit_val (c : ascii) : Z := Z.of_nat (nat_of_ascii c - 48).

Fixpoint lstrip (s : string) : string :=
  match s with
  | "" => ""
  | String c s' => if is_space c then lstrip s' else s
  end.

Fixpoint rstrip (s : string) : string :=
  match s with
  | "" => ""
  | String c s' =>
      match rstrip s' with
      | "" => if is_space c then "" else String c ""
      | r => String c r
      end
  end.

(** [s.strip()] *)
Definition strip (s : string) : string := rstrip (lstrip s).

(** [sub in s] for strings. *)
Fixpoint contains (sub s : string) : bool :=
  String.prefix sub s ||
  match s with
  | "" => false
  | String _ s' => contains sub s'
  end.

(** [s.split(sep)] for a non-empty separator: the pieces between the
    non-overlapping occurrences of [sep], scanned from the left.  [skip] counts
    the characters of a matched separator that are still to be passed. *)
Fixpoint split_go (sep : string) (skip : nat) (s : string) : list string :=
  match s with
  | "" => [""]
  | String c s' =>
      match skip with
      | S k => split_go sep k s'
      | O =>
          if String.prefix sep s
          then "" :: split_go sep (String.length sep - 1) s'
          else match split_go sep 0 s' with
               | w :: ws => String c w :: ws
               | [] => [String c ""]
               end
      end
  end.

Definition split (sep s : string) : list string := split_go sep 0 s.

(** [s.split()] : the maximal runs of non-whitespace characters. *)
Fixpoint split_ws (s : string) : list string :=
  match s with
  | "" => []
  | String c s' =>
      if is_space c then split_ws s'
      else match s' with
           | "" => [String c ""]
           | String c' _ =>
               if is_space c' then String c "" :: split_ws s'
               else match split_ws s' with
                    | w :: ws => String c w :: ws
                    | [] => [String c ""]
                    end
           end
  end.

(** [s[:n]] *)
Fixpoint str_take (n : nat) (s : string) : string :=
  match n, s with
  | S n', String c s' => String c (str_take n' s')
  | _, _ => ""
  end.

(** [sep.join(l)] *)
Fixpoint join (sep : string) (l : list string) : string :=
  match l with
  | [] => ""
  | [x] => x
  | x :: l' => x +:+ sep +:+ join sep l'
  end.

(** [l[i]] *)
Definition index {A} (l : list A) (i : nat) : res A :=
  match l !! i with
  | Some x => Ok x
  | None => Raise IndexError
  end.

(** [int(s)] for a string of decimal digits; anything else is a
    [ValueError] here (the source only converts digit groups). *)
Fixpoint int_digits (acc : Z) (s : string) : res Z :=
  match s with
  | "" => Ok acc
  | String c s' =>
      if is_digit c then int_digits (acc * 10 + digit_val c) s'
      else Raise ValueError
  end.

Definition int (s : string) : res Z :=
  match s with
  | "" => Raise ValueError
  | _ => int_digits 0 s
  end.

Fixpoint bin_pos (p : positive) (acc : string) : string :=
  match p with
  | xH => String "1" acc
  | xO p' => bin_pos p' (String "0" acc)
  | xI p' => bin_pos p' (String "1" acc)
  end.

Fixpoint zeros (n : nat) : string :=
  match n with
  | O => ""
  | S n' => String "0" (zeros n')
  end.

Definition zfill (width : nat) (s : string) : string :=
  zeros (width - String.length s) +:+ s.

(** [format(o, '08b')]: binary digits, zero-padded after the sign to a
    total width of at least 8. *)
Definition format_08b (o : Z) : string :=
  match o with
  | Z0 => zfill 8 "0"
  | Zpos p => zfill 8 (bin_pos p "")
  | Zneg p => String "-" (zfill 7 (bin_pos p ""))
  end.

(** ** Validators *)

(** The longest prefix of at most [n] digits, and the rest. *)
Fixpoint take_digits (n : nat) (s : string) : string * string :=
  match n, s with
  | S n', String c s' =>
      if is_digit c
      then let '(d, r) := take_digits n' s' in (String c d, r)
      else ("", s)
  | _, _ => ("", s)
  end.

(** [(\d{1,3})\.] : the group is greedy, and giving a digit back never helps
    because the next pattern character is a literal dot. *)
Definition re_group_dot (s : string) : option (string * string) :=
  match take_digits 3 s with
  | (String c d, String "." r) => Some (String c d, r)
  | _ => None
  end.

(** [$] without MULTILINE: the end of the string, or just before a newline
    that ends the string. *)
Definition re_at_end (s : string) : bool :=
  bool_decide (s = "") || bool_decide (s = nl).

(** [(\d{1,3})$] *)
Definition re_group_end (s : string) : option string :=
  match take_digits 3 s with
  | (String c d, r) => if re_at_end r then Some (String c d) else None
  | _ => None
  end.

(** [re.match(r'^(\d{1,3})\.(\d{1,3})\.(\d{1,3})\.(\d{1,3})$', s)], giving
    [match.groups()]. *)
Definition re_match_ipv4 (s : string) : option (list string) :=
  '(g1, s1) ← re_group_dot s;
  '(g2, s2) ← re_group_dot s1;
  '(g3, s3) ← re_group_dot s2;
  g4 ← re_group_end s3;
  Some [g1; g2; g3; g4].

(** The loop [for octet in match.groups(): if int(octet) > 255: return False]
    followed by [return True]. *)
Fixpoint octets_in_range (groups : list string) : res bool :=
  match groups with
  | [] => Ok true
  | octet :: rest =>
      n ← int octet;
      if (n >? 255)%Z then Ok false else octets_in_range rest
  end.

Definition validate_ipv4 (ip : string) : res bool :=
  match re_match_ipv4 (strip ip) with
  | None => Ok false
  | Some groups => octets_in_range groups
  end.

Definition validate_subnet_mask (mask : string) : res bool :=
  ok ← validate_ipv4 mask;
  if negb ok then Ok false
  else
    octets ← mapM int (split "." (strip mask));
    let binary := join "" (format_08b <$> octets) in
    if contains "01" binary then Ok false else Ok true.

(** ** The environment, the program state and the monad of effects *)

(** What [subprocess.run(..., capture_output=True, text=True, timeout=30)]
    returns when the process exits. *)
Record CompletedProcess : Type := {
  returncode : Z;
  stdout : string;
  stderr : string
}.

(** How a process started by the program ends; [msg] is the text [str(e)] of
    the exception Python raises. *)
Inductive outcome : Type :=
| Exited (result : CompletedProcess)
| TimedOut (msg : string)
| SpawnFailed (msg : string).

(** How [with open(path, mode) as f:] followed by writes ends: every write
    reached the file and it was closed; or [open] raised [OSError] and the
    file is as it was; or a write, or the close, raised [OSError] once the
    first [written] characters of the text had reached the file.  [msg] is
    the text [str(e)] of the exception. *)
Inductive file_outcome : Type :=
| Completed
| OpenFailed (msg : string)
| WriteFailed (msg : string) (written : nat).

(** The oracles: the outcome of the [n]-th call of [subprocess.run] (counted
    from 0) on a command line, the formatted result of the [n]-th reading of
    the clock, the operator's answer to the [n]-th dialog shown, and the
    outcome of the [n]-th opening of a file for writing, by its path. *)
Record Env : Type := {
  os_run : nat → list string → outcome;
  now : nat → string;
  answer : nat → bool;
  file_op : nat → string → file_outcome
}.

Definition ADDED_ROUTES_FILE : string := "added_routes.json".
Definition LOG_FILE : string := "route_manager.log".

(** A JSON value of a ledger record. *)
Inductive pyval : Type :=
| VStr (s : string)
| VBool (b : bool).

Global Instance pyval_eq_dec : EqDecision pyval.
Proof. solve_decision. Defined.

(** What ADDED_ROUTES_FILE holds: the text [json.dump] wrote for a list of
    records, or the beginning of such a text, left by a write that failed
    after [open(..., "w")] had emptied the file. *)
Inductive json_file : Type :=
| Dumped (routes : list (gmap string pyval))
| Torn.

Inductive ui_event : Type :=
| ShowError (title message : string)
| ShowInfo (title message : string)
| AskYesNo (title message : string)
| DialogDestroy.

Record St : Type := {
  added_routes : list (gmap string pyval);     (* self.added_routes *)
  all_routes_data : list (gmap string string); (* self.all_routes_data *)
  current_filter : string;                     (* self.current_filter *)
  routes_tree : list (list string);            (* rows of self.routes_tree *)
  tab_buttons : gmap string string;            (* text of self.tab_buttons[k] *)
  ui_events : list ui_event;                   (* message boxes shown so far *)
  log_file : string;                           (* content of LOG_FILE *)
  ledger_file : json_file;                     (* content of ADDED_ROUTES_FILE *)
  run_calls : list (list string);              (* command lines given to subprocess.run *)
  clock_reads : nat;                           (* readings of datetime.now() *)
  file_ops : nat                               (* files opened for writing so far *)
}.

Definition set_added_routes (v : list (gmap string pyval)) (st : St) : St :=
  {| added_routes := v; all_routes_data := all_routes_data st;
     current_filter := current_filter st; routes_tree := routes_tree st;
     tab_buttons := tab_buttons st; ui_events := ui_events st;
     log_file := log_file st; ledger_file := ledger_file st;
     run_calls := run_calls st; clock_reads := clock_reads st;
     file_ops := file_ops st |}.

Definition set_all_routes_data (v : list (gmap string string)) (st : St) : St :=
  {| added_routes := added_routes st; all_routes_data := v;
     current_filter := current_filter st; routes_tree := routes_tree st;
     tab_buttons := tab_buttons st; ui_events := ui_events st;
     log_file := log_file st; ledger_file := ledger_file st;
     run_calls := run_calls st; clock_reads := clock_reads st;
     file_ops := file_ops st |}.

Definition set_routes_tree (v : list (list string)) (st : St) : St :=
  {| added_routes := added_routes st; all_routes_data := all_routes_data st;
     current_filter := current_filter st; routes_tree := v;
     tab_buttons := tab_buttons st; ui_events := ui_events st;
     log_file := log_file st; ledger_file := ledger_file st;
     run_calls := run_calls st; clock_reads := clock_reads st;
     file_ops := file_ops st |}.

Definition set_tab_buttons (v : gmap string string) (st : St) : St :=
  {| added_routes := added_routes st; all_routes_data := all_routes_data st;
     current_filter := current_filter st; routes_tree := routes_tree st;
     tab_buttons := v; ui_events := ui_events st;
     log_file := log_file st; ledger_file := ledger_file st;
     run_calls := run_calls st; clock_reads := clock_reads st;
     file_ops := file_ops st |}.

Definition set_ui_events (v : list ui_event) (st : St) : St :=
  {| added_routes := added_routes st; all_routes_data := all_routes_data st;
     current_filter := current_filter st; routes_tree := routes_tree st;
     tab_buttons := tab_buttons st; ui_events := v;
     log_file := log_file st; ledger_file := ledger_file st;
     run_calls := run_calls st; clock_reads := clock_reads st;
     file_ops := file_ops st |}.

Definition set_log_file (v : string) (st : St) : St :=
  {| added_routes := added_routes st; all_routes_data := all_routes_data st;
     current_filter := current_filter st; routes_tree := routes_tree st;
     tab_buttons := tab_buttons st; ui_events := ui_events st;
     log_file := v; ledger_file := ledger_file st;
     run_calls := run_calls st; clock_reads := clock_reads st;
     file_ops := file_ops st |}.

Definition set_ledger_file (v : json_file) (st : St) : St :=
  {| added_routes := added_routes st; all_routes_data := all_routes_data st;
     current_filter := current_filter st; routes_tree := routes_tree st;
     tab_buttons := tab_buttons st; ui_events := ui_events st;
     log_file := log_file st; ledger_file := v;
     run_calls := run_calls st; clock_reads := clock_reads st;
     file_ops := file_ops st |}.

Definition set_run_calls (v : list (list string)) (st : St) : St :=
  {| added_routes := added_routes st; all_routes_data := all_routes_data st;
     current_filter := current_filter st; routes_tree := routes_tree st;
     tab_buttons := tab_buttons st; ui_events := ui_events st;
     log_file := log_file st; ledger_file := ledger_file st;
     run_calls := v; clock_reads := clock_reads st; file_ops := file_ops st |}.

Definition set_clock_reads (v : nat) (st : St) : St :=
  {| added_routes := added_routes st; all_routes_data := all_routes_data st;
     current_filter := current_filter st; routes_tree := routes_tree st;
     tab_buttons := tab_buttons st; ui_events := ui_events st;
     log_file := log_file st; ledger_file := ledger_file st;
     run_calls := run_calls st; clock_reads := v; file_ops := file_ops st |}.

Definition set_file_ops (v : nat) (st : St) : St :=
  {| added_routes := added_routes st; all_routes_data := all_routes_data st;
     current_filter := current_filter st; routes_tree := routes_tree st;
     tab_buttons := tab_buttons st; ui_events := ui_events st;
     log_file := log_file st; ledger_file := ledger_file st;
     run_calls := run_calls st; clock_reads := clock_reads st; file_ops := v |}.

(** Stateful code that may raise.  The state is returned in both cases. *)
Definition M (A : Type) : Type := St → res A * St.

Global Instance M_ret : MRet M := fun _ a st => (Ok a, st).
Global Instance M_bind : MBind M := fun _ _ f m st =>
  match m st with
  | (Ok a, st') => f a st'
  | (Raise e, st') => (Raise e, st')
  end.

(** A pure computation that may raise, run inside [M]. *)
Definition lift {A} (r : res A) : M A := fun st => (r, st).

(** [try: body except Exception as e: handler(e)] *)
Definition try_except {A} (body : M A) (handler : exn → M A) : M A :=
  fun st =>
    match body st with
    | (Ok a, st') => (Ok a, st')
    | (Raise e, st') => handler e st'
    end.

Definition modify (f : St → St) : M unit := fun st => (Ok (), f st).
Definition gets {A} (f : St → A) : M A := fun st => (Ok (f st), st).

(** [for x in l: body(x)] *)
Fixpoint for_each {A} (l : list A) (body : A → M unit) : M unit :=
  match l with
  | [] => mret ()
  | x :: l' => body x ≫= λ _, for_each l' body
  end.

(** Truth value of a [str]: non-empty. *)
Definition truthy (s : string) : bool := negb (bool_decide (s = "")).

(** [a or b] on strings. *)
Definition or_str (a b : string) : string := if truthy a then a else b.

(** [d.get(k, default)] *)
Definition default_get {V} (d : gmap string V) (k : string) (default : V) : V :=
  from_option id default (d !! k).

(** [str(e)] *)
Definition str_exn (e : exn) : string :=
  match e with
  | ValueError => "invalid literal for int() with base 10"
  | IndexError => "list index out of range"
  | TimeoutExpired msg => msg
  | OSError msg => msg
  end.

(** ** Command runner and audit log *)

Definition subprocess_run (env : Env) (cmd : list string) : M CompletedProcess :=
  fun st =>
    let st' := set_run_calls (run_calls st ++ [cmd]) st in
    match os_run env (length (run_calls st)) cmd with
    | Exited result => (Ok result, st')
    | TimedOut msg => (Raise (TimeoutExpired msg), st')
    | SpawnFailed msg => (Raise (OSError msg), st')
    end.

(** [datetime.now().strftime("%Y-%m-%d %H:%M:%S")] *)
Definition strftime_now (env : Env) : M string :=
  fun st => (Ok (now env (clock_reads st)), set_clock_reads (S (clock_reads st)) st).

(** [with open(LOG_FILE, "a", encoding="utf-8") as f:] followed by one
    [f.write(text)] for every [text] of [writes], in order. *)
Definition open_append_log (env : Env) (writes : list string) : M unit :=
  fun st =>
    let text := foldr String.app "" writes in
    let st' := set_file_ops (S (file_ops st)) st in
    match file_op env (file_ops st) LOG_FILE with
    | Completed => (Ok (), set_log_file (log_file st +:+ text) st')
    | OpenFailed msg => (Raise (OSError msg), st')
    | WriteFailed msg written =>
        (Raise (OSError msg),
         set_log_file (log_file st +:+ str_take written text) st')
    end.

(** ['=' * n] *)
Fixpoint equals_signs (n : nat) : string :=
  match n with
  | O => ""
  | S n' => String "=" (equals_signs n')
  end.

Definition log_command (env : Env) (command stdout stderr : string) (success : bool)
  : M unit :=
  timestamp ← strftime_now env;
  let status := if success then "SUCCESS" else "FAILED" in
  open_append_log env
    ([nl +:+ equals_signs 60 +:+ nl;
      "[" +:+ timestamp +:+ "] " +:+ status +:+ nl;
      "Command: " +:+ command +:+ nl]
     ++ (if truthy (strip stdout) then ["STDOUT:" +:+ nl +:+ stdout +:+ nl] else [])
     ++ (if truthy (strip stderr) then ["STDERR:" +:+ nl +:+ stderr +:+ nl] else [])).

(** [save_added_routes(routes)]: the file is opened with mode ["w"], which
    empties it, and the whole list is written by [json.dump]. *)
Definition save_added_routes (env : Env) (routes : list (gmap string pyval))
  : M unit :=
  fun st =>
    let st' := set_file_ops (S (file_ops st)) st in
    match file_op env (file_ops st) ADDED_ROUTES_FILE with
    | Completed => (Ok (), set_ledger_file (Dumped routes) st')
    | OpenFailed msg => (Raise (OSError msg), st')
    | WriteFailed msg _ => (Raise (OSError msg), set_ledger_file Torn st')
    end.

Definition showerror (title message : string) : M unit :=
  modify (fun st => set_ui_events (ui_events st ++ [ShowError title message]) st).

Definition showinfo (title message : string) : M unit :=
  modify (fun st => set_ui_events (ui_events st ++ [ShowInfo title message]) st).

Definition askyesno (env : Env) (title message : string) : M bool :=
  fun st =>
    (Ok (answer env (length (ui_events st))),
     set_ui_events (ui_events st ++ [AskYesNo title message]) st).

Definition dialog_destroy : M unit :=
  modify (fun st => set_ui_events (ui_events st ++ [DialogDestroy]) st).

(** ** Route table parser *)

(** The body of the [try] in the loop of [parse_route_print]: the value of
    [routes] after it. *)
Definition parse_row (parts : list string) (routes : list (gmap string string))
  : res (list (gmap string string)) :=
  p0 ← index parts 0;
  valid ← validate_ipv4 p0;
  accepted ← (if (valid : bool) then Ok true
              else p0' ← index parts 0; Ok (bool_decide (p0' = "0.0.0.0")));
  if (accepted : bool) then
    destination ← index parts 0;
    netmask ← index parts 1;
    gateway ← index parts 2;
    interface ← index parts 3;
    metric ← (if 4 <? length parts then index parts 4 else Ok "");
    Ok (routes ++ [list_to_map [("destination", destination); ("netmask", netmask);
                                ("gateway", gateway); ("interface", interface);
                                ("metric", metric)]])
  else Ok routes.

(** The [for line in lines] loop of [parse_route_print]; [continue] is the
    recursive call on the remaining lines, [break] returns. *)
Fixpoint parse_lines (lines : list string) (in_active_routes : bool)
    (routes : list (gmap string string)) : res (list (gmap string string)) :=
  match lines with
  | [] => Ok routes
  | line :: rest =>
      if contains "Active Routes:" line then parse_lines rest true routes
      else if contains "Persistent Routes:" line then Ok routes
      else if negb in_active_routes then parse_lines rest in_active_routes routes
      else if contains "Network Destination" line then
        parse_lines rest in_active_routes routes
      else if contains "==" line then parse_lines rest in_active_routes routes
      else
        let line := strip line in
        if negb (truthy line) then parse_lines rest in_active_routes routes
        else
          let parts := split_ws line in
          if 5 <=? length parts then
            match parse_row parts routes with
            | Ok routes' => parse_lines rest in_active_routes routes'
            | Raise _ => parse_lines rest in_active_routes routes
            end
          else parse_lines rest in_active_routes routes
  end.

Definition parse_route_print (output : string) : res (list (gmap string string)) :=
  parse_lines (split nl output) false [].

(** The loop of [get_persistent_routes] over the set [persistent], which it
    updates in place: the set when the loop ends, and whether it ended by an
    exception. *)
Fixpoint persistent_lines (lines : list string) (in_persistent : bool)
    (persistent : gset string) : gset string * res unit :=
  match lines with
  | [] => (persistent, Ok ())
  | line :: rest =>
      if contains "Persistent Routes:" line then persistent_lines rest true persistent
      else if in_persistent then
        if contains "==" line then persistent_lines rest in_persistent persistent
        else if contains "None" line then (persistent, Ok ())
        else
          let parts := split_ws (strip line) in
          if 1 <=? length parts then
            match (p0 ← index parts 0;
                   valid ← validate_ipv4 p0;
                   if (valid : bool) then Ok true
                   else p0' ← index parts 0; Ok (bool_decide (p0' = "0.0.0.0"))) with
            | Ok true =>
                match index parts 0 with
                | Ok p0 => persistent_lines rest in_persistent ({[p0]} ∪ persistent)
                | Raise e => (persistent, Raise e)
                end
            | Ok false => persistent_lines rest in_persistent persistent
            | Raise e => (persistent, Raise e)
            end
          else persistent_lines rest in_persistent persistent
      else persistent_lines rest in_persistent persistent
  end.

(** [get_persistent_routes]: its own run of the print command; on any
    exception the set built so far is returned. *)
Definition get_persistent_routes (env : Env) : M (gset string) :=
  try_except
    (result ← subprocess_run env ["route"; "print"; "-4"];
     if (returncode result =? 0)%Z
     then mret (persistent_lines (split nl (stdout result)) false ∅).1
     else mret ∅)
    (λ _, mret ∅).

(** ** Reconciliation: classification, snapshot, views *)

Definition well_known : list string :=
  ["0.0.0.0"; "127.0.0.0"; "127.0.0.1"; "224.0.0.0"; "255.255.255.255"].

Definition update_tab_counts : M unit :=
  data ← gets all_routes_data;
  let all_count := length data in
  let persistent_count :=
    length (filter (λ r, r !! "persistent" = Some "Yes") data) in
  let temporary_count :=
    length (filter (λ r, r !! "persistent" = Some "No") data) in
  modify (λ st, set_tab_buttons
    (<["all" := "All (" +:+ pretty all_count +:+ ")"]> (tab_buttons st)) st);;
  modify (λ st, set_tab_buttons
    (<["persistent" := "Persistent (" +:+ pretty persistent_count +:+ ")"]>
       (tab_buttons st)) st);;
  modify (λ st, set_tab_buttons
    (<["temporary" := "Temporary (" +:+ pretty temporary_count +:+ ")"]>
       (tab_buttons st)) st).

Definition type_display (persistent_text : string) : string :=
  if bool_decide (persistent_text = "Yes") then "PERSISTENT"
  else if bool_decide (persistent_text = "No") then "TEMPORARY"
  else "SYSTEM".

(** The body of the loop of [filter_routes]. *)
Definition insert_row (route : gmap string string) : M unit :=
  flt ← gets current_filter;
  if bool_decide (flt = "persistent")
     && negb (bool_decide (route !! "persistent" = Some "Yes")) then mret ()
  else if bool_decide (flt = "temporary")
     && negb (bool_decide (route !! "persistent" = Some "No")) then mret ()
  else
    let persistent_text := default_get route "persistent" "Unknown" in
    modify (λ st, set_routes_tree
      (routes_tree st ++
         [[default_get route "destination" ""; default_get route "netmask" "";
           default_get route "gateway" ""; default_get route "interface" "";
           default_get route "metric" ""; type_display persistent_text]]) st).

Definition filter_routes : M unit :=
  modify (set_routes_tree []);;
  data ← gets all_routes_data;
  for_each data insert_row.

(** The classification written inline in the loop of [refresh_routes]. *)
Definition classify (persistent_routes : gset string) (dest : string) : string :=
  let is_persistent := "Unknown" in
  if bool_decide (dest ∈ persistent_routes) then "Yes"
  else if negb (bool_decide (dest ∈ well_known)) then "No"
  else is_persistent.

(** The body of the loop of [refresh_routes]. *)
Definition append_entry (persistent_routes : gset string)
    (route : gmap string string) : M unit :=
  let dest := default_get route "destination" "" in
  let is_persistent := classify persistent_routes dest in
  modify (λ st, set_all_routes_data
    (all_routes_data st ++
       [list_to_map
          [("destination", default_get route "destination" "");
           ("netmask", default_get route "netmask" "");
           ("gateway", default_get route "gateway" "");
           ("interface", default_get route "interface" "");
           ("metric", default_get route "metric" "");
           ("persistent", is_persistent)]]) st).

Definition refresh_routes (env : Env) : M unit :=
  try_except
    (result ← subprocess_run env ["route"; "print"; "-4"];
     if (returncode result =? 0)%Z then
       routes ← lift (parse_route_print (stdout result));
       persistent_routes ← get_persistent_routes env;
       modify (set_all_routes_data []);;
       for_each routes (append_entry persistent_routes);;
       update_tab_counts;;
       filter_routes
     else mret ())
    (λ _, mret ()).

(** ** Mutation gateway *)

(** What the add-route dialog holds when its button is pressed. *)
Record AddForm : Type := {
  entry_dest : string;               (* entries["dest"].get() *)
  entry_mask : string;               (* entries["mask"].get() *)
  entry_gateway : string;            (* entries["gateway"].get() *)
  selected_interface_index : string; (* selected_interface_index.get() *)
  interface_var : string;            (* interface_var.get() *)
  persistent_var : bool              (* persistent_var.get() *)
}.

(** [not s or not validate(s)] *)
Definition invalid_field (validate : string → res bool) (s : string) : M bool :=
  if negb (truthy s) then mret true
  else ok ← lift (validate s); mret (negb ok).

(** The command line built by [do_add]. *)
Definition add_command (form : AddForm) : list string :=
  let dest := strip (entry_dest form) in
  let mask := strip (entry_mask form) in
  let gateway := strip (entry_gateway form) in
  let ifindex := selected_interface_index form in
  let cmd := if persistent_var form then ["route"; "-p"; "add"] else ["route"; "add"] in
  let cmd := cmd ++ [dest; "mask"; mask; gateway] in
  if truthy ifindex then cmd ++ ["IF"; ifindex] else cmd.

Definition do_add (env : Env) (form : AddForm) : M unit :=
  let dest := strip (entry_dest form) in
  let mask := strip (entry_mask form) in
  let gateway := strip (entry_gateway form) in
  let persistent := persistent_var form in
  bad_dest ← invalid_field validate_ipv4 dest;
  if (bad_dest : bool) then showerror "Error" "Invalid destination IP" else
  bad_mask ← invalid_field validate_subnet_mask mask;
  if (bad_mask : bool) then showerror "Error" "Invalid subnet mask" else
  bad_gateway ← invalid_field validate_ipv4 gateway;
  if (bad_gateway : bool) then showerror "Error" "Invalid gateway IP" else
  confirmed ← (if persistent
               then askyesno env "Confirm"
                      "This route will persist across reboots. Continue?"
               else mret true);
  if negb confirmed then mret () else
  let cmd := add_command form in
  try_except
    (result ← subprocess_run env cmd;
     log_command env (join " " cmd) (stdout result) (stderr result)
       (returncode result =? 0)%Z;;
     if (returncode result =? 0)%Z then
       iface_name ← (if truthy (interface_var form)
                     then lift (index (split " (" (interface_var form)) 0)
                     else mret "N/A");
       timestamp ← strftime_now env;
       let route_record : gmap string pyval :=
         list_to_map
           [("destination", VStr dest); ("mask", VStr mask);
            ("gateway", VStr gateway); ("interface", VStr iface_name);
            ("persistent", VStr (if persistent then "Yes" else "No"));
            ("timestamp", VStr timestamp)] in
       modify (λ st, set_added_routes (added_routes st ++ [route_record]) st);;
       routes ← gets added_routes;
       save_added_routes env routes;;
       showinfo "Success" ("Route to " +:+ dest +:+ " added successfully");;
       dialog_destroy;;
       refresh_routes env
     else
       showerror "Error"
         (or_str (stderr result) (or_str (stdout result) "Failed to add route")))
    (λ e, showerror "Error" (str_exn e)).

Definition do_delete (env : Env) (dest_entry : string) : M unit :=
  let dest := strip dest_entry in
  bad_dest ← invalid_field validate_ipv4 dest;
  if (bad_dest : bool) then showerror "Error" "Invalid destination IP" else
  confirmed ← askyesno env "Confirm" ("Delete route to " +:+ dest +:+ "?");
  if negb confirmed then mret () else
  try_except
    (result ← subprocess_run env ["route"; "delete"; dest];
     log_command env ("route delete " +:+ dest) (stdout result) (stderr result)
       (returncode result =? 0)%Z;;
     if (returncode result =? 0)%Z then
       showinfo "Success" ("Route to " +:+ dest +:+ " deleted");;
       dialog_destroy;;
       refresh_routes env
     else
       showerror "Error"
         (or_str (stderr result) (or_str (stdout result) "Failed to delete route")))
    (λ e, showerror "Error" (str_exn e)).

(** ** Specification-side definitions

    These follow the words of the specification and are compared with the
    embedded code in the theorems below. *)

(** A group of one to three digits that is numerically at most 255. *)
Fixpoint all_digits (g : string) : bool :=
  match g with
  | "" => true
  | String c g' => is_digit c && all_digits g'
  end.

Fixpoint decimal_from (acc : Z) (g : string) : Z :=
  match g with
  | "" => acc
  | String c g' => decimal_from (acc * 10 + digit_val c) g'
  end.

Definition decimal_value (g : string) : Z := decimal_from 0 g.

Definition digit_group (g : string) : bool :=
  (1 <=? String.length g) && (String.length g <=? 3) && all_digits g.

Definition octet_group (g : string) : bool :=
  digit_group g && (decimal_value g <=? 255)%Z.

(** No dot among the characters. *)
Fixpoint dotless (g : string) : bool :=
  match g with
  | "" => true
  | String c g' => negb (bool_decide (c = "."%char)) && dotless g'
  end.

(** The string is empty or starts with a character that is not a digit. *)
Definition starts_nondigit (r : string) : bool :=
  match r with
  | "" => true
  | String c _ => negb (is_digit c)
  end.

(** Four dot-separated groups of 1 to 3 digits, each at most 255. *)
Definition dotted_quad (s : string) : bool :=
  match split "." s with
  | [a; b; c; d] => octet_group a && octet_group b && octet_group c && octet_group d
  | _ => false
  end.

(** The 8 bits of an octet, most significant first. *)
Definition byte_bits (o : Z) : list bool :=
  (λ k : nat, Z.testbit o (Z.of_nat k)) <$> [7; 6; 5; 4; 3; 2; 1; 0].

(** The 32-bit binary expansion of a dotted quad: 8 bits per octet,
    concatenated. *)
Definition mask_bits (s : string) : list bool :=
  mjoin (byte_bits ∘ decimal_value <$> split "." (strip s)).

(** No 0 bit is followed later by a 1 bit. *)
Definition no_zero_before_one (bits : list bool) : Prop :=
  ∀ i j : nat, i < j → bits !! i = Some false → bits !! j ≠ Some true.

(** The characters ['0'] and ['1'] of a list of bits. *)
Fixpoint bits_string (bits : list bool) : string :=
  match bits with
  | [] => ""
  | b :: bits' => String (if b then "1" else "0")%char (bits_string bits')
  end.

(** Ones, then zeros. *)
Fixpoint ones_then_zeros (bits : list bool) : bool :=
  match bits with
  | [] => true
  | true :: bits' => ones_then_zeros bits'
  | false :: bits' => forallb negb bits'
  end.

(** *** The active section of a route table, as the parser delimits it *)

Definition active_marker (line : string) : bool := contains "Active Routes:" line.

Definition persistent_marker (line : string) : bool :=
  contains "Persistent Routes:" line && negb (active_marker line).

(** The lines before the first [Persistent Routes:] marker (all of them when
    there is none). *)
Fixpoint until_persistent (lines : list string) : list string :=
  match lines with
  | [] => []
  | line :: rest => if persistent_marker line then [] else line :: until_persistent rest
  end.

(** The lines after the first [Active Routes:] marker (none when there is no
    marker). *)
Fixpoint after_active (lines : list string) : list string :=
  match lines with
  | [] => []
  | line :: rest => if active_marker line then rest else after_active rest
  end.

(** The lines strictly between the two markers. *)
Definition active_section (lines : list string) : list string :=
  after_active (until_persistent lines).

(** The lines the loop of the parser still reads, given the value of
    [in_active_routes]. *)
Definition section_from (in_active_routes : bool) (lines : list string) : list string :=
  if in_active_routes then until_persistent lines
  else after_active (until_persistent lines).

(** [validate_ipv4(field)] returned [True]. *)
Definition validates_ipv4 (field : string) : bool :=
  match validate_ipv4 field with
  | Ok b => b
  | Raise _ => false
  end.

Definition first_field_ok (line : string) : bool :=
  match split_ws line with
  | field0 :: _ => validates_ipv4 field0 || bool_decide (field0 = "0.0.0.0")
  | [] => false
  end.

(** The entry read from a row: the first five fields, by position. *)
Definition row_entry (line : string) : gmap string string :=
  let parts := split_ws line in
  list_to_map [("destination", parts !!! 0); ("netmask", parts !!! 1);
               ("gateway", parts !!! 2); ("interface", parts !!! 3);
               ("metric", parts !!! 4)].

(** The rows the parser accepts: the tests of the source. *)
Definition row_ok (line : string) : bool :=
  negb (active_marker line)
  && negb (contains "Network Destination" line)
  && negb (contains "==" line)
  && truthy (strip line)
  && (5 <=? length (split_ws line))
  && first_field_ok line.

Definition expected_routes (output : string) : list (gmap string string) :=
  row_entry <$> filter (λ line, row_ok line = true) (active_section (split nl output)).

(** A line consisting only of [=] characters (at least one). *)
Fixpoint only_equals (s : string) : bool :=
  match s with
  | "" => true
  | String c s' => bool_decide (c = "="%char) && only_equals s'
  end.

Definition separator_line (line : string) : bool :=
  truthy (strip line) && only_equals (strip line).

(** The rows of the claim as worded: not the column header, not a line of
    [=] characters only, not blank, at least five fields, a valid first
    field. *)
Definition worded_row_ok (line : string) : bool :=
  negb (contains "Network Destination" line)
  && negb (separator_line line)
  && truthy (strip line)
  && (5 <=? length (split_ws line))
  && first_field_ok line.

Definition worded_routes (output : string) : list (gmap string string) :=
  row_entry <$> filter (λ line, worded_row_ok line = true)
                       (active_section (split nl output)).

(** *** The snapshot a successful refresh publishes *)

Definition snapshot_entry (persistent_routes : gset string) (route : gmap string string)
  : gmap string string :=
  list_to_map
    [("destination", default_get route "destination" "");
     ("netmask", default_get route "netmask" "");
     ("gateway", default_get route "gateway" "");
     ("interface", default_get route "interface" "");
     ("metric", default_get route "metric" "");
     ("persistent", classify persistent_routes (default_get route "destination" ""))].

Definition tab_texts (data : list (gmap string string)) (tabs : gmap string string)
  : gmap string string :=
  <["temporary" := "Temporary (" +:+
       pretty (length (filter (λ r, r !! "persistent" = Some "No") data)) +:+ ")"]>
  (<["persistent" := "Persistent (" +:+
       pretty (length (filter (λ r, r !! "persistent" = Some "Yes") data)) +:+ ")"]>
  (<["all" := "All (" +:+ pretty (length data) +:+ ")"]> tabs)).

Definition visible (flt : string) (route : gmap string string) : bool :=
  negb (bool_decide (flt = "persistent")
        && negb (bool_decide (route !! "persistent" = Some "Yes")))
  && negb (bool_decide (flt = "temporary")
           && negb (bool_decide (route !! "persistent" = Some "No"))).

Definition tree_row (route : gmap string string) : list string :=
  [default_get route "destination" ""; default_get route "netmask" "";
   default_get route "gateway" ""; default_get route "interface" "";
   default_get route "metric" "";
   type_display (default_get route "persistent" "Unknown")].

Definition visible_rows (flt : string) (data : list (gmap string string))
  : list (list string) :=
  tree_row <$> filter (λ r, visible flt r = true) data.

Definition print_command : list string := ["route"; "print"; "-4"].

(** The state a refresh publishes from the parsed [routes] and the set
    [persistent_routes], two runs of the print command after [st]. *)
Definition published (routes : list (gmap string string))
    (persistent_routes : gset string) (st : St) : St :=
  let data := snapshot_entry persistent_routes <$> routes in
  set_routes_tree (visible_rows (current_filter st) data)
    (set_tab_buttons (tab_texts data (tab_buttons st))
       (set_all_routes_data data
          (set_run_calls (run_calls st ++ [print_command; print_command]) st))).

(** The fetch of a refresh cycle failed: the process could not be spawned,
    timed out, or exited with a non-zero code. *)
Definition fetch_failed (o : outcome) : Prop :=
  match o with
  | Exited result => returncode result ≠ 0%Z
  | TimedOut _ => True
  | SpawnFailed _ => True
  end.

(** The set [get_persistent_routes] returns for the outcome of its run of the
    print command. *)
Definition fetched_persistent (o : outcome) : gset string :=
  match o with
  | Exited result =>
      if (returncode result =? 0)%Z
      then (persistent_lines (split nl (stdout result)) false ∅).1
      else ∅
  | _ => ∅
  end.

(** The state after one more run of the print command. *)
Definition ran_print (st : St) : St :=
  set_run_calls (run_calls st ++ [print_command]) st.

(** The state after a refresh cycle whose two runs of the print command end
    with [o1] and [o2]. *)
Definition refreshed_with (o1 o2 : outcome) (st : St) : St :=
  match o1 with
  | Exited result =>
      if (returncode result =? 0)%Z
      then published (expected_routes (stdout result)) (fetched_persistent o2) st
      else ran_print st
  | _ => ran_print st
  end.

Definition refreshed (env : Env) (st : St) : St :=
  refreshed_with (os_run env (length (run_calls st)) print_command)
                 (os_run env (S (length (run_calls st))) print_command) st.

(** *** Audit log records *)

(** One block of the audit log. *)
Definition log_record (timestamp command out err : string) (success : bool) : string :=
  nl +:+ equals_signs 60 +:+ nl +:+
  "[" +:+ timestamp +:+ "] " +:+ (if success then "SUCCESS" else "FAILED") +:+ nl +:+
  "Command: " +:+ command +:+ nl +:+
  (if truthy (strip out) then "STDOUT:" +:+ nl +:+ out +:+ nl else "") +:+
  (if truthy (strip err) then "STDERR:" +:+ nl +:+ err +:+ nl else "").

(** What a file operation that ends as [o] leaves of [text] at the end of a
    file opened in append mode. *)
Definition written_part (o : file_outcome) (text : string) : string :=
  match o with
  | Completed => text
  | OpenFailed _ => ""
  | WriteFailed _ written => str_take written text
  end.

(** The text of the exception a file operation that ends as [o] raises. *)
Definition failure_text (o : file_outcome) : option string :=
  match o with
  | Completed => None
  | OpenFailed msg => Some msg
  | WriteFailed msg _ => Some msg
  end.

(** What ADDED_ROUTES_FILE holds after a [save_added_routes(routes)] that
    ends as [o], when it held [before]. *)
Definition saved_part (o : file_outcome) (routes : list (gmap string pyval))
    (before : json_file) : json_file :=
  match o with
  | Completed => Dumped routes
  | OpenFailed _ => before
  | WriteFailed _ _ => Torn
  end.

(** The result of a call that raises what a file operation ending as [o]
    raises. *)
Definition file_result (o : file_outcome) : res unit :=
  match failure_text o with
  | None => Ok ()
  | Some msg => Raise (OSError msg)
  end.

(** *** Adding a route *)

(** The form passes the validation of [do_add] and, for a persistent route,
    the operator confirms. *)
Definition add_accepted (env : Env) (form : AddForm) (st : St) : Prop :=
  truthy (strip (entry_dest form)) = true
  ∧ validate_ipv4 (strip (entry_dest form)) = Ok true
  ∧ truthy (strip (entry_mask form)) = true
  ∧ validate_subnet_mask (strip (entry_mask form)) = Ok true
  ∧ truthy (strip (entry_gateway form)) = true
  ∧ validate_ipv4 (strip (entry_gateway form)) = Ok true
  ∧ (persistent_var form = true → answer env (length (ui_events st)) = true).

Definition iface_name_of (form : AddForm) : string :=
  if truthy (interface_var form)
  then split " (" (interface_var form) !!! 0
  else "N/A".

(** The record of a route added through [form] at time [timestamp]. *)
Definition added_record (form : AddForm) (timestamp : string) : gmap string pyval :=
  list_to_map
    [("destination", VStr (strip (entry_dest form)));
     ("mask", VStr (strip (entry_mask form)));
     ("gateway", VStr (strip (entry_gateway form)));
     ("interface", VStr (iface_name_of form));
     ("persistent", VStr (if persistent_var form then "Yes" else "No"));
     ("timestamp", VStr timestamp)].


(** The events the dialog of [do_add] raises before the command runs. *)
Definition confirm_events (form : AddForm) : list ui_event :=
  if persistent_var form
  then [AskYesNo "Confirm" "This route will persist across reboots. Continue?"]
  else [].

(** The state once [do_add] has run its command, which exited with [result],
    and has logged it, the audit log having been written to the end. *)
Definition add_logged (env : Env) (form : AddForm) (result : CompletedProcess)
    (st : St) : St :=
  set_log_file
    (log_file st +:+
       log_record (now env (clock_reads st)) (join " " (add_command form))
         (stdout result) (stderr result) (returncode result =? 0)%Z)
    (set_file_ops (S (file_ops st))
       (set_clock_reads (S (clock_reads st))
          (set_run_calls (run_calls st ++ [add_command form])
             (set_ui_events (ui_events st ++ confirm_events form) st)))).

(** The state once [do_add] has run its command, which exited with [result],
    and the writing of the audit log has raised an exception of text [msg]. *)
Definition add_log_failed (env : Env) (form : AddForm) (result : CompletedProcess)
    (msg : string) (st : St) : St :=
  set_log_file
    (log_file st +:+
       written_part (file_op env (file_ops st) LOG_FILE)
         (log_record (now env (clock_reads st)) (join " " (add_command form))
            (stdout result) (stderr result) (returncode result =? 0)%Z))
    (set_file_ops (S (file_ops st))
       (set_clock_reads (S (clock_reads st))
          (set_run_calls (run_calls st ++ [add_command form])
             (set_ui_events
                (ui_events st ++ confirm_events form ++ [ShowError "Error" msg])
                st)))).

(** The state once a successful [do_add] has recorded the route, just before
    it calls [refresh_routes]. *)
Definition add_recorded (env : Env) (form : AddForm) (result : CompletedProcess)
    (st : St) : St :=
  let record := added_record form (now env (S (clock_reads st))) in
  let st1 := add_logged env form result st in
  set_ui_events
    (ui_events st1 ++
       [ShowInfo "Success"
          ("Route to " +:+ strip (entry_dest form) +:+ " added successfully");
        DialogDestroy])
    (set_ledger_file (Dumped (added_routes st ++ [record]))
       (set_file_ops (S (S (file_ops st)))
          (set_added_routes (added_routes st ++ [record])
             (set_clock_reads (S (S (clock_reads st))) st1)))).

(** The state after a [do_add] whose command exited with code zero and was
    logged, and whose writing of the ledger file has raised an exception of
    text [msg]: the record is in memory, and no refresh has run. *)
Definition add_save_failed (env : Env) (form : AddForm) (result : CompletedProcess)
    (msg : string) (st : St) : St :=
  let record := added_record form (now env (S (clock_reads st))) in
  let st1 := add_logged env form result st in
  set_ui_events (ui_events st1 ++ [ShowError "Error" msg])
    (set_ledger_file
       (saved_part (file_op env (S (file_ops st)) ADDED_ROUTES_FILE)
          (added_routes st ++ [record]) (ledger_file st))
       (set_file_ops (S (S (file_ops st)))
          (set_added_routes (added_routes st ++ [record])
             (set_clock_reads (S (S (clock_reads st))) st1)))).

(** The failure detail [do_add] and [do_delete] show. *)
Definition failure_detail (result : CompletedProcess) (generic : string) : string :=
  or_str (stderr result) (or_str (stdout result) generic).

(** The state after a [do_add] whose command exited with a non-zero code. *)
Definition add_rejected (env : Env) (form : AddForm) (result : CompletedProcess)
    (st : St) : St :=
  let st1 := add_logged env form result st in
  set_ui_events
    (ui_events st1 ++ [ShowError "Error" (failure_detail result "Failed to add route")])
    st1.

(** The state [do_add] leaves once its command has exited with [result]. *)
Definition add_exited (env : Env) (form : AddForm) (result : CompletedProcess)
    (st : St) : St :=
  match failure_text (file_op env (file_ops st) LOG_FILE) with
  | Some msg => add_log_failed env form result msg st
  | None =>
      if (returncode result =? 0)%Z then
        match failure_text (file_op env (S (file_ops st)) ADDED_ROUTES_FILE) with
        | Some msg => add_save_failed env form result msg st
        | None => refreshed env (add_recorded env form result st)
        end
      else add_rejected env form result st
  end.

(** The destination passes the validation of [do_delete] and the operator
    confirms. *)
Definition delete_accepted (env : Env) (dest_entry : string) (st : St) : Prop :=
  truthy (strip dest_entry) = true
  ∧ validate_ipv4 (strip dest_entry) = Ok true
  ∧ answer env (length (ui_events st)) = true.

Definition delete_command (dest_entry : string) : list string :=
  ["route"; "delete"; strip dest_entry].

(** The state once [do_delete] has run its command and has logged it, the
    audit log having been written to the end. *)
Definition delete_logged (env : Env) (dest_entry : string)
    (result : CompletedProcess) (st : St) : St :=
  set_log_file
    (log_file st +:+
       log_record (now env (clock_reads st)) ("route delete " +:+ strip dest_entry)
         (stdout result) (stderr result) (returncode result =? 0)%Z)
    (set_file_ops (S (file_ops st))
       (set_clock_reads (S (clock_reads st))
          (set_run_calls (run_calls st ++ [delete_command dest_entry])
             (set_ui_events
                (ui_events st ++
                   [AskYesNo "Confirm" ("Delete route to " +:+ strip dest_entry +:+ "?")])
                st)))).

(** The state once [do_delete] has run its command, which exited with
    [result], and the writing of the audit log has raised an exception of
    text [msg]. *)
Definition delete_log_failed (env : Env) (dest_entry : string)
    (result : CompletedProcess) (msg : string) (st : St) : St :=
  set_log_file
    (log_file st +:+
       written_part (file_op env (file_ops st) LOG_FILE)
         (log_record (now env (clock_reads st)) ("route delete " +:+ strip dest_entry)
            (stdout result) (stderr result) (returncode result =? 0)%Z))
    (set_file_ops (S (file_ops st))
       (set_clock_reads (S (clock_reads st))
          (set_run_calls (run_calls st ++ [delete_command dest_entry])
             (set_ui_events
                (ui_events st ++
                   [AskYesNo "Confirm" ("Delete route to " +:+ strip dest_entry +:+ "?");
                    ShowError "Error" msg])
                st)))).

(** The state [do_delete] leaves once its command has exited with
    [result]. *)
Definition delete_exited (env : Env) (dest_entry : string)
    (result : CompletedProcess) (st : St) : St :=
  match failure_text (file_op env (file_ops st) LOG_FILE) with
  | Some msg => delete_log_failed env dest_entry result msg st
  | None =>
      let st1 := delete_logged env dest_entry result st in
      if (returncode result =? 0)%Z
      then refreshed env
             (set_ui_events
                (ui_events st1 ++
                   [ShowInfo "Success" ("Route to " +:+ strip dest_entry +:+ " deleted");
                    DialogDestroy]) st1)
      else set_ui_events
             (ui_events st1 ++
                [ShowError "Error" (failure_detail result "Failed to delete route")])
             st1
  end.

(** *** Sample inputs *)

Definition sample_table : string :=
  "IPv4 Route Table" +:+ nl +:+
  "===========================================================================" +:+ nl +:+
  "Active Routes:" +:+ nl +:+
  "Network Destination        Netmask          Gateway       Interface  Metric" +:+ nl +:+
  "          0.0.0.0          0.0.0.0      192.168.1.1    192.168.1.50     25" +:+ nl +:+
  "        127.0.0.0        255.0.0.0         On-link         127.0.0.1    331" +:+ nl +:+
  "         10.0.0.0        255.0.0.0         10.0.0.1    192.168.1.50     26" +:+ nl +:+
  "===========================================================================" +:+ nl +:+
  "Persistent Routes:" +:+ nl +:+
  "  Network Address          Netmask  Gateway Address  Metric" +:+ nl +:+
  "          0.0.0.0          0.0.0.0      192.168.1.1  Default " +:+ nl +:+
  "===========================================================================" +:+ nl.

Definition sample_clock (n : nat) : string := "2024-01-01 00:00:0" +:+ pretty n.

(** Every command succeeds and prints the sample table. *)
Definition sample_env : Env :=
  {| os_run := λ _ _, Exited {| returncode := 0; stdout := sample_table; stderr := "" |};
     now := sample_clock;
     answer := λ _, true;
     file_op := λ _ _, Completed |}.

(** Every command exits with code 1 and prints nothing. *)
Definition silent_failure_env : Env :=
  {| os_run := λ _ _, Exited {| returncode := 1; stdout := ""; stderr := "" |};
     now := sample_clock;
     answer := λ _, true;
     file_op := λ _ _, Completed |}.

(** Every command times out. *)
Definition timeout_env : Env :=
  {| os_run := λ _ _, TimedOut "timed out after 30 seconds";
     now := sample_clock;
     answer := λ _, true;
     file_op := λ _ _, Completed |}.

Definition initial_state : St :=
  {| added_routes := []; all_routes_data := []; current_filter := "all";
     routes_tree := []; tab_buttons := ∅; ui_events := []; log_file := "";
     ledger_file := Dumped []; run_calls := []; clock_reads := 0; file_ops := 0 |}.

Definition sample_form : AddForm :=
  {| entry_dest := "10.0.0.0"; entry_mask := "255.255.255.0";
     entry_gateway := "10.0.0.1"; selected_interface_index := "12";
     interface_var := "Ethernet (192.168.1.50)"; persistent_var := false |}.

Definition sample_persistent_form : AddForm :=
  {| entry_dest := " 10.0.0.0"; entry_mask := "255.255.255.0 ";
     entry_gateway := "10.0.0.1"; selected_interface_index := "";
     interface_var := ""; persistent_var := true |}.

Definition sample_result : CompletedProcess :=
  {| returncode := 0; stdout := sample_table; stderr := "" |}.

(** The entry of the default route in the snapshot of the sample table. *)
Definition sample_entry : gmap string string :=
  list_to_map
    [("destination", "0.0.0.0"); ("netmask", "0.0.0.0"); ("gateway", "192.168.1.1");
     ("interface", "192.168.1.50"); ("metric", "25"); ("persistent", "Yes")].

(** A route table whose only row carries [==] inside a field. *)
Definition table_with_equals_in_row : string :=
  "Active Routes:" +:+ nl +:+
  "10.0.0.0 255.0.0.0 10.0.0.1 a==b 5" +:+ nl +:+
  "Persistent Routes:".


(** The first run of the print command succeeds, every later run times out. *)
Definition second_run_timeout_env : Env :=
  {| os_run := λ n _,
       match n with
       | 0 => Exited {| returncode := 0; stdout := sample_table; stderr := "" |}
       | S _ => TimedOut "timed out after 30 seconds"
       end;
     now := sample_clock;
     answer := λ _, true;
     file_op := λ _ _, Completed |}.

(** Every command succeeds; the audit log cannot be opened. *)
Definition unwritable_log_env : Env :=
  {| os_run := λ _ _, Exited {| returncode := 0; stdout := sample_table; stderr := "" |};
     now := sample_clock;
     answer := λ _, true;
     file_op := λ _ path,
       if bool_decide (path = LOG_FILE) then OpenFailed "Permission denied"
       else Completed |}.

(** Every command succeeds; the ledger file cannot be opened. *)
Definition unwritable_ledger_env : Env :=
  {| os_run := λ _ _, Exited {| returncode := 0; stdout := sample_table; stderr := "" |};
     now := sample_clock;
     answer := λ _, true;
     file_op := λ _ path,
       if bool_decide (path = ADDED_ROUTES_FILE) then OpenFailed "Permission denied"
       else Completed |}.

(** Every command succeeds; every file can be opened and no more than ten
    characters reach it. *)
Definition full_disk_env : Env :=
  {| os_run := λ _ _, Exited {| returncode := 0; stdout := sample_table; stderr := "" |};
     now := sample_clock;
     answer := λ _, true;
     file_op := λ _ _, WriteFailed "No space left on device" 10 |}.

(** Every command times out and the audit log cannot be opened. *)
Definition timeout_unwritable_log_env : Env :=
  {| os_run := λ _ _, TimedOut "timed out after 30 seconds";
     now := sample_clock;
     answer := λ _, true;
     file_op := λ _ _, OpenFailed "Permission denied" |}.

(** A state that holds a previously published snapshot of one entry. *)
Definition stale_state : St :=
  {| added_routes := []; all_routes_data := [sample_entry]; current_filter := "all";
     routes_tree := [tree_row sample_entry]; tab_buttons := tab_texts [sample_entry] ∅;
     ui_events := []; log_file := ""; ledger_file := Dumped []; run_calls := [];
     clock_reads := 0; file_ops := 0 |}.


(** ** Further code of the application *)

Definition set_current_filter (v : string) (st : St) : St :=
  {| added_routes := added_routes st; all_routes_data := all_routes_data st;
     current_filter := v; routes_tree := routes_tree st;
     tab_buttons := tab_buttons st; ui_events := ui_events st;
     log_file := log_file st; ledger_file := ledger_file st;
     run_calls := run_calls st; clock_reads := clock_reads st;
     file_ops := file_ops st |}.

(** [RouteManagerApp.switch_tab]; the colours of the tab buttons are not
    part of the state. *)
Definition switch_tab (tab_id : string) : M unit :=
  modify (set_current_filter tab_id);;
  filter_routes.


(** *** What [do_add] and [do_delete] do in every case *)

(** [validate_subnet_mask(field)] returned [True]. *)
Definition validates_mask (field : string) : bool :=
  match validate_subnet_mask field with
  | Ok b => b
  | Raise _ => false
  end.

(** [not s or not validate(s)], as a value. *)
Definition field_rejected (valid : string → bool) (s : string) : bool :=
  negb (truthy s) || negb (valid s).

(** The dialogs [do_add] answers with when it returns before running the
    command, and [None] when it goes on to run it. *)
Definition add_refusal (env : Env) (form : AddForm) (st : St) : option (list ui_event) :=
  if field_rejected validates_ipv4 (strip (entry_dest form))
  then Some [ShowError "Error" "Invalid destination IP"]
  else if field_rejected validates_mask (strip (entry_mask form))
  then Some [ShowError "Error" "Invalid subnet mask"]
  else if field_rejected validates_ipv4 (strip (entry_gateway form))
  then Some [ShowError "Error" "Invalid gateway IP"]
  else if persistent_var form && negb (answer env (length (ui_events st)))
  then Some (confirm_events form)
  else None.

(** The state after a command of the gateway raised: the run is counted and
    the text of the exception is shown. *)
Definition command_raised (cmd : list string) (events : list ui_event) (msg : string)
    (st : St) : St :=
  set_ui_events (ui_events st ++ events ++ [ShowError "Error" msg])
    (set_run_calls (run_calls st ++ [cmd]) st).

(** The state [do_add] leaves. *)
Definition add_state (env : Env) (form : AddForm) (st : St) : St :=
  match add_refusal env form st with
  | Some events => set_ui_events (ui_events st ++ events) st
  | None =>
      match os_run env (length (run_calls st)) (add_command form) with
      | Exited result => add_exited env form result st
      | TimedOut msg => command_raised (add_command form) (confirm_events form) msg st
      | SpawnFailed msg => command_raised (add_command form) (confirm_events form) msg st
      end
  end.

Definition delete_question (dest_entry : string) : ui_event :=
  AskYesNo "Confirm" ("Delete route to " +:+ strip dest_entry +:+ "?").

(** The state [do_delete] leaves. *)
Definition delete_state (env : Env) (dest_entry : string) (st : St) : St :=
  if field_rejected validates_ipv4 (strip dest_entry)
  then set_ui_events (ui_events st ++ [ShowError "Error" "Invalid destination IP"]) st
  else if negb (answer env (length (ui_events st)))
  then set_ui_events (ui_events st ++ [delete_question dest_entry]) st
  else
    match os_run env (length (run_calls st)) (delete_command dest_entry) with
    | Exited result => delete_exited env dest_entry result st
    | TimedOut msg =>
        command_raised (delete_command dest_entry) [delete_question dest_entry] msg st
    | SpawnFailed msg =>
        command_raised (delete_command dest_entry) [delete_question dest_entry] msg st
    end.


(** A form whose mask is not contiguous. *)
Definition bad_mask_form : AddForm :=
  {| entry_dest := "10.0.0.0"; entry_mask := "255.0.255.0";
     entry_gateway := "10.0.0.1"; selected_interface_index := "12";
     interface_var := "Ethernet (192.168.1.50)"; persistent_var := false |}.



(** *** Words and the persistent section *)

(** No white space among the characters. *)
Fixpoint no_space (w : string) : bool :=
  match w with
  | "" => true
  | String c w' => negb (is_space c) && no_space w'
  end.

(** A field as [str.split()] yields them: not empty, no white space. *)
Definition is_field (w : string) : Prop := w ≠ "" ∧ no_space w = true.

(** The line at which the loop of [get_persistent_routes] stops. *)
Definition none_line (line : string) : bool :=
  negb (contains "Persistent Routes:" line)
  && negb (contains "==" line)
  && contains "None" line.

(** The lines after the first [Persistent Routes:] marker. *)
Fixpoint after_persistent (lines : list string) : list string :=
  match lines with
  | [] => []
  | line :: rest =>
      if contains "Persistent Routes:" line then rest else after_persistent rest
  end.

(** The lines before the first line that stops the loop. *)
Fixpoint until_none (lines : list string) : list string :=
  match lines with
  | [] => []
  | line :: rest => if none_line line then [] else line :: until_none rest
  end.

(** The rows of the persistent section the loop takes a destination from. *)
Definition persistent_row_ok (line : string) : bool :=
  negb (contains "Persistent Routes:" line)
  && negb (contains "==" line)
  && first_field_ok line.

(** The lines the loop of [get_persistent_routes] still reads, given the value
    of [in_persistent]. *)
Definition persistent_section_from (in_persistent : bool) (lines : list string)
  : list string :=
  if in_persistent then until_none lines else until_none (after_persistent lines).

Definition persistent_destinations_of (lines : list string) : list string :=
  (λ line, split_ws line !!! 0) <$> filter (λ line, persistent_row_ok line = true) lines.

(** The destinations of the persistent section of a route table. *)
Definition persistent_destinations (output : string) : list string :=
  persistent_destinations_of (persistent_section_from false (split nl output)).


(** A route table with translated section headers. *)
Definition translated_table : string :=
  "IPv4-Routentabelle" +:+ nl +:+
  "===========================================================================" +:+ nl +:+
  "Aktive Routen:" +:+ nl +:+
  "     Netzwerkziel    Netzwerkmaske          Gateway    Schnittstelle Metrik" +:+ nl +:+
  "          0.0.0.0          0.0.0.0      192.168.1.1    192.168.1.50     25" +:+ nl +:+
  "===========================================================================" +:+ nl +:+
  "Ständige Routen:" +:+ nl +:+
  "  Keine" +:+ nl.

Definition translated_result : CompletedProcess :=
  {| returncode := 0; stdout := translated_table; stderr := "" |}.

(** Every command succeeds and prints the translated table. *)
Definition translated_env : Env :=
  {| os_run := λ _ _, Exited translated_result;
     now := sample_clock;
     answer := λ _, true;
     file_op := λ _ _, Completed |}.

(** The row [filter_routes] shows for a parsed route, given the set of
    persistent destinations. *)
Definition display_row (persistent_routes : gset string) (route : gmap string string)
  : list string :=
  let dest := default_get route "destination" "" in
  [dest; default_get route "netmask" ""; default_get route "gateway" "";
   default_get route "interface" ""; default_get route "metric" "";
   if bool_decide (dest ∈ persistent_routes) then "PERSISTENT"
   else if bool_decide (dest ∈ well_known) then "SYSTEM"
   else "TEMPORARY"].


(** *** Masks as prefix lengths, interface names *)

(** The four octets of the mask with [k] leading one bits. *)
Definition cidr_octets (k : nat) : list Z :=
  let v := (2 ^ 32 - 2 ^ (32 - Z.of_nat k))%Z in
  [(v / 2 ^ 24) mod 256; (v / 2 ^ 16) mod 256; (v / 2 ^ 8) mod 256; v mod 256]%Z.

(** The number written by a list of bits, most significant first. *)
Definition bits_value (bits : list bool) : Z :=
  foldl (λ acc (b : bool), 2 * acc + (if b then 1 else 0))%Z 0%Z bits.

(** The text shown for an interface in the list of the add-route dialog
    ([show_add_route_dialog], the loop over [self.interfaces]). *)
Definition interface_display (name ipv4 : string) : string :=
  name +:+ (if truthy ipv4 then " (" +:+ ipv4 +:+ ")" else "").


(** *** Automatic refresh

    The four methods [toggle_auto_refresh], [start_auto_refresh],
    [stop_auto_refresh] and [auto_refresh_tick], with the timers of the
    toolkit: [root.after(ms, f)] registers a callback and returns a fresh
    identifier, [root.after_cancel(id)] unregisters it, and the main loop
    unregisters a callback when it runs it. *)

Record Poller : Type := {
  app : St;
  auto_refresh_enabled : bool;     (* self.auto_refresh_enabled *)
  auto_refresh_job : option nat;   (* self.auto_refresh_job *)
  scheduled : list nat;            (* registered callbacks of auto_refresh_tick *)
  next_timer : nat                 (* the identifier root.after returns next *)
}.

Definition auto_refresh_tick (env : Env) (p : Poller) : res unit * Poller :=
  if auto_refresh_enabled p then
    match refresh_routes env (app p) with
    | (Ok _, st') =>
        (Ok (),
         {| app := st'; auto_refresh_enabled := auto_refresh_enabled p;
            auto_refresh_job := Some (next_timer p);
            scheduled := scheduled p ++ [next_timer p];
            next_timer := S (next_timer p) |})
    | (Raise e, st') =>
        (Raise e,
         {| app := st'; auto_refresh_enabled := auto_refresh_enabled p;
            auto_refresh_job := auto_refresh_job p;
            scheduled := scheduled p; next_timer := next_timer p |})
    end
  else (Ok (), p).

Definition start_auto_refresh (env : Env) (p : Poller) : res unit * Poller :=
  if auto_refresh_enabled p && bool_decide (auto_refresh_job p = None)
  then auto_refresh_tick env p
  else (Ok (), p).

Definition stop_auto_refresh (p : Poller) : res unit * Poller :=
  match auto_refresh_job p with
  | Some job =>
      (Ok (),
       {| app := app p; auto_refresh_enabled := auto_refresh_enabled p;
          auto_refresh_job := None;
          scheduled := filter (λ id, id ≠ job) (scheduled p);
          next_timer := next_timer p |})
  | None => (Ok (), p)
  end.

(** [var] is [self.auto_refresh_var.get()]. *)
Definition toggle_auto_refresh (env : Env) (var : bool) (p : Poller)
  : res unit * Poller :=
  let p := {| app := app p; auto_refresh_enabled := var;
              auto_refresh_job := auto_refresh_job p;
              scheduled := scheduled p; next_timer := next_timer p |} in
  if var then start_auto_refresh env p else stop_auto_refresh p.

(** The main loop runs the registered callback [id]. *)
Definition timer_fires (env : Env) (id : nat) (p : Poller) : res unit * Poller :=
  if bool_decide (id ∈ scheduled p) then
    auto_refresh_tick env
      {| app := app p; auto_refresh_enabled := auto_refresh_enabled p;
         auto_refresh_job := auto_refresh_job p;
         scheduled := filter (λ id', id' ≠ id) (scheduled p);
         next_timer := next_timer p |}
  else (Ok (), p).

(** What happens to the application between two returns to the main loop. *)
Inductive poll_event : Type :=
| Toggle (var : bool)
| TimerFires (id : nat)
| ManualRefresh.

Definition poll_step (env : Env) (p : Poller) (ev : poll_event) : Poller :=
  match ev with
  | Toggle var => (toggle_auto_refresh env var p).2
  | TimerFires id => (timer_fires env id p).2
  | ManualRefresh =>
      {| app := (refresh_routes env (app p)).2;
         auto_refresh_enabled := auto_refresh_enabled p;
         auto_refresh_job := auto_refresh_job p;
         scheduled := scheduled p; next_timer := next_timer p |}
  end.

(** The poller at the end of [RouteManagerApp.__init__]. *)
Definition poller_init (env : Env) (st : St) : Poller :=
  (start_auto_refresh env
     {| app := st; auto_refresh_enabled := true; auto_refresh_job := None;
        scheduled := []; next_timer := 0 |}).2.

(** One registered callback while automatic refresh is on, none while it is
    off, and [auto_refresh_job] names it. *)
Definition poller_ok (p : Poller) : Prop :=
  scheduled p = option_list (auto_refresh_job p)
  ∧ (auto_refresh_enabled p = true ↔ is_Some (auto_refresh_job p)).

(** *** Interface discovery with netsh *)

(** [c.isdigit()] on the code points below 256: the ASCII digits and the
    superscripts two, three and one. *)
Definition py_isdigit (c : ascii) : bool :=
  is_digit c || bool_decide (nat_of_ascii c ∈ [178; 179; 185]).

Fixpoint all_py_digits (s : string) : bool :=
  match s with
  | "" => true
  | String c s' => py_isdigit c && all_py_digits s'
  end.

(** [s.isdigit()] *)
Definition isdigit (s : string) : bool := truthy s && all_py_digits s.

(** The body of the [try] in the loop of [discover_interfaces_netsh]: the
    value of [interfaces] after it. *)
Definition netsh_row (parts : list string) (interfaces : list (gmap string string))
  : res (list (gmap string string)) :=
  idx ← index parts 0;
  if isdigit idx then
    state ← (if 3 <? length parts then index parts 3 else Ok "");
    name ← (if 4 <? length parts then Ok (join " " (drop 4 parts))
            else index parts (length parts - 1));
    Ok (interfaces ++ [list_to_map [("index", idx); ("name", name);
                                    ("state", state); ("ipv4", "")]])
  else Ok interfaces.

Fixpoint netsh_lines (lines : list string) (interfaces : list (gmap string string))
  : list (gmap string string) :=
  match lines with
  | [] => interfaces
  | line :: rest =>
      let parts := split_ws line in
      if 4 <=? length parts then
        match netsh_row parts interfaces with
        | Ok interfaces' => netsh_lines rest interfaces'
        | Raise _ => netsh_lines rest interfaces
        end
      else netsh_lines rest interfaces
  end.

Definition netsh_command : list string :=
  ["netsh"; "interface"; "ipv4"; "show"; "interfaces"].

Definition discover_interfaces_netsh (env : Env) : M (list (gmap string string)) :=
  try_except
    (result ← subprocess_run env netsh_command;
     if (returncode result =? 0)%Z then
       let lines := split nl (strip (stdout result)) in
       mret (netsh_lines (drop 3 lines) [])
     else mret [])
    (λ e, log_command env "netsh interface discovery" "" (str_exn e) false;;
          mret []).



Definition sample_netsh_output : string :=
  nl +:+
  "Idx     Met         MTU          State                Name" +:+ nl +:+
  "---  ----------  ----------  ------------  ---------------------------" +:+ nl +:+
  "  1          75  4294967295  connected     Loopback Pseudo-Interface 1" +:+ nl +:+
  " 12          25        1500  connected     Ethernet" +:+ nl +:+
  " 17          35        1500  disconnected" +:+ nl.

Definition netsh_env : Env :=
  {| os_run := λ _ _, Exited {| returncode := 0; stdout := sample_netsh_output;
                                stderr := "" |};
     now := sample_clock;
     answer := λ _, true;
     file_op := λ _ _, Completed |}.

(** * Properties *)

(** ** Appending strings *)

Lemma app_empty_l (s : string) : "" +:+ s = s.
Proof. reflexivity. Qed.

Lemma app_String (c : ascii) (s t : string) : String c s +:+ t = String c (s +:+ t).
Proof. reflexivity. Qed.

Lemma app_empty_r (s : string) : s +:+ "" = s.
Proof. induction s as [|c s IH]; [done|]. by rewrite app_String, IH. Qed.

Lemma app_assoc_str (s t u : string) : (s +:+ t) +:+ u = s +:+ (t +:+ u).
Proof. induction s as [|c s IH]; [done|]. by rewrite !app_String, IH. Qed.

Lemma app_length_str (s t : string) :
  String.length (s +:+ t) = String.length s + String.length t.
Proof. induction s as [|c s IH]; [done|]. rewrite app_String. simpl. by rewrite IH. Qed.

Ltac str_simpl := rewrite ?app_String, ?app_empty_l in *.

(** ** Stripping *)

Section strip_facts.
Implicit Types s : string.

Lemma lstrip_head s :
  lstrip s = "" ∨ ∃ c t, lstrip s = String c t ∧ is_space c = false.
Proof.
  induction s as [|c s IH]; simpl; [by left|].
  destruct (is_space c) eqn:Hc; [done|]. right. eauto.
Qed.

Lemma rstrip_idemp s : rstrip (rstrip s) = rstrip s.
Proof.
  induction s as [|c s IH]; simpl; [done|].
  destruct (rstrip s) as [|a r] eqn:Hr.
  - destruct (is_space c) eqn:Hc; simpl; [done|]. by rewrite Hc.
  - change (rstrip (String c (String a r))) with
      (match rstrip (String a r) with
       | "" => if is_space c then "" else String c ""
       | r' => String c r'
       end).
    by rewrite IH.
Qed.

Lemma rstrip_head c t :
  is_space c = false → ∃ t', rstrip (String c t) = String c t'.
Proof. intros Hc. simpl. destruct (rstrip t); rewrite ?Hc; eauto. Qed.

Lemma lstrip_strip s : lstrip (strip s) = strip s.
Proof.
  unfold strip. destruct (lstrip_head s) as [->|(c & t & -> & Hc)]; [done|].
  destruct (rstrip_head c t Hc) as [t' ->]. simpl. by rewrite Hc.
Qed.

Lemma strip_idemp s : strip (strip s) = strip s.
Proof.
  unfold strip at 1. rewrite lstrip_strip. unfold strip. apply rstrip_idemp.
Qed.

(** A stripped string does not end with a white space character. *)
Lemma rstrip_no_trailing_space s t c :
  rstrip s = t +:+ String c "" → is_space c = false.
Proof.
  revert t. induction s as [|a s IH]; intros t; simpl.
  - destruct t; discriminate.
  - destruct (rstrip s) as [|b r] eqn:Hr.
    + destruct (is_space a) eqn:Ha; [destruct t; discriminate|].
      destruct t as [|x [|y t]]; str_simpl; intros; simplify_eq; done.
    + destruct t as [|x t]; str_simpl; intros Heq; [discriminate|].
      injection Heq as -> Heq. eauto.
Qed.

Lemma strip_no_trailing_space s t c :
  strip s = t +:+ String c "" → is_space c = false.
Proof. apply rstrip_no_trailing_space. Qed.

End strip_facts.

(** ** Digit groups and the regular expression *)

Section regex_facts.
Implicit Types s g r : string.

Lemma take_digits_spec n s d r :
  take_digits n s = (d, r) →
  s = d +:+ r ∧ all_digits d = true ∧ String.length d ≤ n.
Proof.
  revert s d r. induction n as [|n IH]; intros s d r; simpl.
  - destruct s; intros [= <- <-]; simpl; auto with lia.
  - destruct s as [|c s]; [intros [= <- <-]; simpl; auto with lia|].
    destruct (is_digit c) eqn:Hc; [|intros [= <- <-]; simpl; auto with lia].
    destruct (take_digits n s) as [d' r'] eqn:Ht. intros [= <- <-].
    destruct (IH _ _ _ Ht) as (-> & Hd & Hl). str_simpl. simpl.
    rewrite Hc, Hd. auto with lia.
Qed.

Lemma take_digits_rest n s d r :
  take_digits n s = (d, r) → String.length d = n ∨ starts_nondigit r = true.
Proof.
  revert s d r. induction n as [|n IH]; intros s d r; simpl.
  - destruct s; intros [= <- <-]; auto.
  - destruct s as [|c s]; [intros [= <- <-]; auto|].
    destruct (is_digit c) eqn:Hc; [|intros [= <- <-]; simpl; rewrite Hc; auto].
    destruct (take_digits n s) as [d' r'] eqn:Ht. intros [= <- <-].
    destruct (IH _ _ _ Ht) as [<-|?]; simpl; auto.
Qed.

Lemma take_digits_app n g r :
  all_digits g = true → String.length g ≤ n →
  String.length g = n ∨ starts_nondigit r = true →
  take_digits n (g +:+ r) = (g, r).
Proof.
  revert g. induction n as [|n IH]; intros g Hd Hl Hr.
  - destruct g; simpl in *; [|lia]. by destruct r.
  - destruct g as [|c g]; str_simpl; simpl in *.
    + destruct Hr as [?|Hr]; [lia|]. destruct r as [|c r]; [done|].
      simpl in Hr. by destruct (is_digit c).
    + apply andb_prop in Hd as [-> Hd]. rewrite IH; [done|done|lia|].
      destruct Hr; [left; lia|by right].
Qed.

Lemma all_digits_dotless g : all_digits g = true → dotless g = true.
Proof.
  induction g as [|c g IH]; simpl; [done|].
  intros [Hc Hg]%andb_prop. rewrite IH by done.
  rewrite andb_true_r. apply negb_true_iff, bool_decide_eq_false. by intros ->.
Qed.

Lemma int_digits_value acc g :
  all_digits g = true → int_digits acc g = Ok (decimal_from acc g).
Proof.
  revert acc. induction g as [|c g IH]; intros acc; simpl; [done|].
  intros [-> Hg]%andb_prop. by apply IH.
Qed.

Lemma int_digit_group g : digit_group g = true → int g = Ok (decimal_value g).
Proof.
  unfold digit_group. intros [[Hl _]%andb_prop Hd]%andb_prop.
  destruct g; [done|]. by apply int_digits_value.
Qed.

Lemma decimal_from_nonneg acc g : (0 ≤ acc)%Z → (0 ≤ decimal_from acc g)%Z.
Proof.
  revert acc. induction g as [|c g IH]; intros acc Hacc; simpl; [done|].
  apply IH. unfold digit_val. lia.
Qed.

Lemma decimal_value_nonneg g : (0 ≤ decimal_value g)%Z.
Proof. by apply decimal_from_nonneg. Qed.

End regex_facts.

(** ** Splitting on dots *)

Section split_facts.
Implicit Types s g r : string.

Lemma prefix_empty s : String.prefix "" s = true.
Proof. by destruct s. Qed.

Lemma prefix_char a c s :
  String.prefix (String a "") (String c s) = bool_decide (a = c).
Proof.
  simpl. destruct (ascii_dec a c) as [->|Hne].
  - by rewrite prefix_empty, bool_decide_eq_true_2.
  - by rewrite bool_decide_eq_false_2.
Qed.

Lemma split_go_nonempty sep k s : split_go sep k s ≠ [].
Proof.
  revert k. induction s as [|c s IH]; intros k; [done|].
  cbn [split_go]. destruct k as [|k]; [|apply IH].
  destruct (String.prefix sep (String c s)); [done|].
  by destruct (split_go sep 0 s).
Qed.

Lemma split_head_total sep s : split sep s !! 0 = Some (split sep s !!! 0).
Proof.
  unfold split. pose proof (split_go_nonempty sep 0 s).
  by destruct (split_go sep 0 s).
Qed.

Lemma split_dot_cons c s :
  split "." (String c s) =
  if bool_decide (c = "."%char) then "" :: split "." s
  else match split "." s with
       | w :: ws => String c w :: ws
       | [] => [String c ""]
       end.
Proof.
  unfold split. cbn [split_go]. rewrite prefix_char.
  destruct (decide ("."%char = c)) as [<-|Hne].
  - by rewrite !bool_decide_eq_true_2.
  - rewrite !bool_decide_eq_false_2 by congruence. done.
Qed.

Lemma split_dot_dotless g : dotless g = true → split "." g = [g].
Proof.
  induction g as [|c g IH]; [done|]. simpl.
  intros [Hc Hg]%andb_prop. rewrite split_dot_cons.
  apply negb_true_iff in Hc. rewrite Hc, IH by done. done.
Qed.

Lemma split_dot_app g r :
  dotless g = true → split "." (g +:+ "." +:+ r) = g :: split "." r.
Proof.
  induction g as [|c g IH]; simpl.
  - intros _. str_simpl. by rewrite split_dot_cons.
  - intros [Hc Hg]%andb_prop. str_simpl. rewrite split_dot_cons.
    apply negb_true_iff in Hc. rewrite Hc, IH by done. done.
Qed.

Lemma split_dot_inv s a rest :
  split "." s = a :: rest →
  dotless a = true ∧
  ((rest = [] ∧ s = a) ∨ (∃ s', s = a +:+ "." +:+ s' ∧ split "." s' = rest)).
Proof.
  revert a rest. induction s as [|c s IH]; intros a rest.
  - intros [= <- <-]. auto.
  - rewrite split_dot_cons. case_bool_decide as Hc.
    + intros [= <- <-]. subst c. split; [done|]. right. by exists s.
    + destruct (split "." s) as [|w ws] eqn:Hs.
      { by apply split_go_nonempty in Hs. }
      intros [= <- <-]. destruct (IH _ _ eq_refl) as [Hw Hcase].
      split; [simpl; by rewrite Hw, bool_decide_eq_false_2|].
      destruct Hcase as [[-> ->]|(s' & -> & <-)]; [by left|].
      right. exists s'. by str_simpl.
Qed.

End split_facts.

(** ** The IPv4 pattern matches exactly the dotted quads *)

Section ipv4_facts.
Implicit Types s g r t : string.

Lemma digit_group_intro d n :
  all_digits d = true → String.length d ≤ 3 → d = String n.1 n.2 →
  digit_group d = true.
Proof.
  intros Hd Hl ->. unfold digit_group. rewrite Hd. simpl in *.
  rewrite andb_true_r. apply Nat.leb_le. lia.
Qed.

Lemma digit_group_elim g :
  digit_group g = true →
  all_digits g = true ∧ 1 ≤ String.length g ≤ 3.
Proof.
  unfold digit_group. intros [[H1%Nat.leb_le H2%Nat.leb_le]%andb_prop Hd]%andb_prop.
  auto.
Qed.

Lemma re_group_dot_Some s g r :
  re_group_dot s = Some (g, r) → s = g +:+ "." +:+ r ∧ digit_group g = true.
Proof.
  unfold re_group_dot. destruct (take_digits 3 s) as [d r'] eqn:Ht.
  destruct (take_digits_spec _ _ _ _ Ht) as (-> & Hd & Hl).
  destruct d as [|c d]; [done|]. destruct r' as [|x r']; [done|].
  destruct (decide (x = "."%char)) as [->|Hne].
  - intros [= <- <-]. split; [done|].
    by apply (digit_group_intro _ (c, d)).
  - destruct x as [[] [] [] [] [] [] [] []]; try done.
Qed.

Lemma re_group_dot_app g r :
  digit_group g = true → re_group_dot (g +:+ "." +:+ r) = Some (g, r).
Proof.
  intros (Hd & Hl1 & Hl3)%digit_group_elim. unfold re_group_dot.
  rewrite take_digits_app; [|done|done|by right].
  destruct g; [simpl in *; lia|done].
Qed.

Lemma re_group_end_Some s g :
  re_group_end s = Some g → digit_group g = true ∧ (s = g ∨ s = g +:+ nl).
Proof.
  unfold re_group_end. destruct (take_digits 3 s) as [d r'] eqn:Ht.
  destruct (take_digits_spec _ _ _ _ Ht) as (-> & Hd & Hl).
  destruct d as [|c d]; [done|]. unfold re_at_end.
  destruct (decide (r' = "")) as [->|Hne1].
  - simpl. intros [= <-]. rewrite app_empty_r.
    split; [by apply (digit_group_intro _ (c, d))|by left].
  - rewrite (bool_decide_eq_false_2 _ Hne1). simpl.
    case_bool_decide as Hnl; [|done]. subst r'. intros [= <-].
    split; [by apply (digit_group_intro _ (c, d))|by right].
Qed.

Lemma re_group_end_exact g : digit_group g = true → re_group_end g = Some g.
Proof.
  intros (Hd & Hl1 & Hl3)%digit_group_elim. unfold re_group_end.
  rewrite <-(app_empty_r g) at 1.
  rewrite take_digits_app; [|done|done|by right].
  destruct g; [simpl in *; lia|done].
Qed.

Lemma octets_in_range_groups (groups : list string) :
  Forall (λ g, digit_group g = true) groups →
  octets_in_range groups = Ok (forallb octet_group groups).
Proof.
  induction 1 as [|g groups Hg _ IH]; [done|].
  cbn [octets_in_range forallb]. rewrite (int_digit_group g Hg).
  unfold octet_group at 1. rewrite Hg. cbn.
  rewrite Z.gtb_ltb, Z.leb_antisym.
  destruct (255 <? decimal_value g)%Z; [done|apply IH].
Qed.

Lemma digit_group_dotless g : digit_group g = true → dotless g = true.
Proof. intros [? _]%digit_group_elim. by apply all_digits_dotless. Qed.

Lemma split_quad a b c d :
  digit_group a = true → digit_group b = true →
  digit_group c = true → digit_group d = true →
  split "." (a +:+ "." +:+ b +:+ "." +:+ c +:+ "." +:+ d) = [a; b; c; d].
Proof.
  intros Ha Hb Hc Hd.
  rewrite !split_dot_app, split_dot_dotless by by apply digit_group_dotless.
  done.
Qed.

Lemma split_quad_inv t a b c d :
  split "." t = [a; b; c; d] →
  t = a +:+ "." +:+ b +:+ "." +:+ c +:+ "." +:+ d.
Proof.
  intros H.
  apply split_dot_inv in H as [_ [[? _]|(t1 & -> & H)]]; [done|].
  apply split_dot_inv in H as [_ [[? _]|(t2 & -> & H)]]; [done|].
  apply split_dot_inv in H as [_ [[? _]|(t3 & -> & H)]]; [done|].
  apply split_dot_inv in H as [_ [[_ ->]|(t4 & _ & H)]]; [done|].
  by apply split_go_nonempty in H.
Qed.

Lemma re_match_ipv4_quad a b c d :
  digit_group a = true → digit_group b = true →
  digit_group c = true → digit_group d = true →
  re_match_ipv4 (a +:+ "." +:+ b +:+ "." +:+ c +:+ "." +:+ d) = Some [a; b; c; d].
Proof.
  intros Ha Hb Hc Hd. unfold re_match_ipv4.
  rewrite (re_group_dot_app a) by done. cbn.
  rewrite (re_group_dot_app b) by done. cbn.
  rewrite (re_group_dot_app c) by done. cbn.
  by rewrite (re_group_end_exact d) by done.
Qed.

Lemma re_match_ipv4_Some t groups :
  re_match_ipv4 t = Some groups →
  ∃ a b c d, groups = [a; b; c; d]
    ∧ digit_group a = true ∧ digit_group b = true
    ∧ digit_group c = true ∧ digit_group d = true
    ∧ (t = a +:+ "." +:+ b +:+ "." +:+ c +:+ "." +:+ d
       ∨ t = (a +:+ "." +:+ b +:+ "." +:+ c +:+ "." +:+ d) +:+ nl).
Proof.
  unfold re_match_ipv4.
  destruct (re_group_dot t) as [[a s1]|] eqn:H1; [cbn|done].
  destruct (re_group_dot s1) as [[b s2]|] eqn:H2; [cbn|done].
  destruct (re_group_dot s2) as [[c s3]|] eqn:H3; [cbn|done].
  destruct (re_group_end s3) as [d|] eqn:H4; [cbn|done].
  intros [= <-].
  apply re_group_dot_Some in H1 as [-> Ha].
  apply re_group_dot_Some in H2 as [-> Hb].
  apply re_group_dot_Some in H3 as [-> Hc].
  apply re_group_end_Some in H4 as [Hd Hs3].
  exists a, b, c, d. repeat split; try done.
  destruct Hs3 as [->| ->]; [by left|right].
  by rewrite !app_assoc_str.
Qed.

(** On a string without a trailing newline, matching the pattern and checking
    the octets is deciding [dotted_quad]. *)
Lemma match_and_range_dotted_quad t :
  (∀ t' c, t = t' +:+ String c "" → is_space c = false) →
  match re_match_ipv4 t with
  | None => Ok false
  | Some groups => octets_in_range groups
  end = Ok (dotted_quad t).
Proof.
  intros Hend. destruct (re_match_ipv4 t) as [groups|] eqn:Hm.
  - apply re_match_ipv4_Some in Hm
      as (a & b & c & d & -> & Ha & Hb & Hc & Hd & [->|Ht]).
    + rewrite octets_in_range_groups by (repeat constructor; done).
      unfold dotted_quad. rewrite split_quad by done.
      cbn. by rewrite andb_true_r, !andb_assoc.
    + by apply Hend in Ht.
  - f_equal. symmetry. apply not_true_is_false. intros Hq.
    unfold dotted_quad in Hq.
    destruct (split "." t) as [|a [|b [|c [|d [|]]]]] eqn:Hs; try done.
    apply split_quad_inv in Hs as ->.
    apply andb_prop in Hq as [[[Ha Hb]%andb_prop Hc]%andb_prop Hd].
    unfold octet_group in *.
    apply andb_prop in Ha as [Ha _]. apply andb_prop in Hb as [Hb _].
    apply andb_prop in Hc as [Hc _]. apply andb_prop in Hd as [Hd _].
    by rewrite re_match_ipv4_quad in Hm.
Qed.

(** [validate_ipv4] never raises, and decides whether the stripped argument is
    a dotted quad. *)
Lemma validate_ipv4_dotted_quad s : validate_ipv4 s = Ok (dotted_quad (strip s)).
Proof.
  unfold validate_ipv4. apply match_and_range_dotted_quad.
  intros t' c. apply strip_no_trailing_space.
Qed.

Lemma validate_ipv4_strip s : validate_ipv4 (strip s) = validate_ipv4 s.
Proof. unfold validate_ipv4. by rewrite strip_idemp. Qed.

Lemma validates_ipv4_dotted_quad s : validates_ipv4 s = dotted_quad (strip s).
Proof. unfold validates_ipv4. by rewrite validate_ipv4_dotted_quad. Qed.

End ipv4_facts.

(** ** The binary expansion of a mask *)

Section mask_facts.
Implicit Types bits : list bool.

Lemma format_08b_byte (n : Z) :
  (0 ≤ n ≤ 255)%Z → format_08b n = bits_string (byte_bits n).
Proof.
  intros Hn.
  assert (forallb (λ k : nat, bool_decide
            (format_08b (Z.of_nat k) = bits_string (byte_bits (Z.of_nat k))))
            (seq 0 256) = true) as Hall by (vm_compute; reflexivity).
  rewrite forallb_forall in Hall.
  assert (In (Z.to_nat n) (seq 0 256)) as Hin by (apply in_seq; lia).
  apply Hall, bool_decide_eq_true_1 in Hin.
  by rewrite Z2Nat.id in Hin by lia.
Qed.

Lemma bits_string_app bits1 bits2 :
  bits_string (bits1 ++ bits2) = bits_string bits1 +:+ bits_string bits2.
Proof. induction bits1 as [|b bits1 IH]; [done|]. simpl. by rewrite IH. Qed.

Lemma join_bits_string (l : list (list bool)) :
  join "" (bits_string <$> l) = bits_string (mjoin l).
Proof.
  induction l as [|x l IH]; [done|].
  change (mjoin (x :: l)) with (x ++ mjoin l).
  rewrite bits_string_app, <-IH, fmap_cons.
  destruct l as [|y l]; [by rewrite app_empty_r|done].
Qed.

Lemma contains_01_bits bits :
  contains "01" (bits_string bits) = negb (ones_then_zeros bits).
Proof.
  induction bits as [|b bits IH]; [done|].
  destruct b; cbn [bits_string ones_then_zeros contains]; rewrite IH.
  - done.
  - destruct bits as [|[] bits]; cbn; rewrite ?prefix_empty; done.
Qed.

Lemma forallb_negb_lookup bits :
  forallb negb bits = true ↔ ∀ j, bits !! j ≠ Some true.
Proof.
  induction bits as [|b bits IH]; simpl.
  - split; [by intros _ j|done].
  - rewrite andb_true_iff, IH. split.
    + intros [Hb Hbits] [|j]; simpl; [by destruct b|done].
    + intros H. split; [specialize (H 0); by destruct b|].
      intros j. apply (H (S j)).
Qed.

Lemma ones_then_zeros_spec bits :
  ones_then_zeros bits = true ↔ no_zero_before_one bits.
Proof.
  unfold no_zero_before_one. induction bits as [|b bits IH].
  - split; [by intros _ i j|done].
  - destruct b; simpl.
    + rewrite IH. split.
      * intros H [|i] [|j] Hij; simpl; try done; try lia.
        apply H. lia.
      * intros H i j Hij. apply (H (S i) (S j)). lia.
    + rewrite forallb_negb_lookup. split.
      * intros H i [|j] Hij _; [lia|]. apply H.
      * intros H j. apply (H 0 (S j)); [lia|done].
Qed.

Lemma mapM_int_groups (groups : list string) :
  Forall (λ g, digit_group g = true) groups →
  mapM int groups = Ok (decimal_value <$> groups).
Proof.
  induction 1 as [|g groups Hg _ IH]; [done|].
  cbn [mapM]. rewrite (int_digit_group g Hg). cbn. by rewrite IH.
Qed.

Lemma dotted_quad_groups (t : string) :
  dotted_quad t = true →
  Forall (λ g, octet_group g = true) (split "." t) ∧ length (split "." t) = 4.
Proof.
  unfold dotted_quad.
  destruct (split "." t) as [|a [|b [|c [|d [|]]]]]; try done.
  intros [[[Ha Hb]%andb_prop Hc]%andb_prop Hd]%andb_prop.
  split; [|done]. by repeat constructor.
Qed.

Lemma octet_group_range g :
  octet_group g = true → digit_group g = true ∧ (0 ≤ decimal_value g ≤ 255)%Z.
Proof.
  unfold octet_group. intros [Hg Hv%Z.leb_le]%andb_prop.
  pose proof (decimal_value_nonneg g). auto with lia.
Qed.

(** The string [binary] computed by [validate_subnet_mask] is the expansion
    [mask_bits], written with the characters 0 and 1. *)
Lemma binary_mask_bits (groups : list string) :
  Forall (λ g, octet_group g = true) groups →
  join "" (format_08b <$> (decimal_value <$> groups))
  = bits_string (mjoin (byte_bits ∘ decimal_value <$> groups)).
Proof.
  intros Hg. rewrite <-join_bits_string. f_equal.
  rewrite <-!list_fmap_compose. apply Forall_fmap_ext_1.
  eapply Forall_impl; [done|]. intros g [_ Hr]%octet_group_range. cbn.
  by apply format_08b_byte.
Qed.

Lemma validate_subnet_mask_decides s :
  validate_subnet_mask s
  = Ok (dotted_quad (strip s) && ones_then_zeros (mask_bits s)).
Proof.
  unfold validate_subnet_mask. rewrite validate_ipv4_dotted_quad. cbn.
  destruct (dotted_quad (strip s)) eqn:Hq; [|done]. cbn.
  apply dotted_quad_groups in Hq as [Hg _].
  rewrite mapM_int_groups; cycle 1.
  { eapply Forall_impl; [done|]. by intros g [? _]%octet_group_range. }
  cbn. rewrite binary_mask_bits by done.
  unfold mask_bits. rewrite contains_01_bits.
  by destruct (ones_then_zeros _).
Qed.

Lemma mask_bits_length s : dotted_quad (strip s) = true → length (mask_bits s) = 32.
Proof.
  intros [_ Hl]%dotted_quad_groups. unfold mask_bits.
  destruct (split "." (strip s)) as [|a [|b [|c [|d [|]]]]]; done.
Qed.

Lemma validate_subnet_mask_strip s :
  validate_subnet_mask (strip s) = validate_subnet_mask s.
Proof. unfold validate_subnet_mask. by rewrite validate_ipv4_strip, strip_idemp. Qed.

End mask_facts.

Lemma forallb_negb_replicate (bits : list bool) :
  forallb negb bits = true → bits = replicate (length bits) false.
Proof.
  induction bits as [|[] bits IH]; simpl; [done|done|].
  intros H. by rewrite <-IH.
Qed.

Lemma ones_then_zeros_run (bits : list bool) :
  ones_then_zeros bits = true →
  ∃ k, k ≤ length bits ∧ bits = replicate k true ++ replicate (length bits - k) false.
Proof.
  induction bits as [|[] bits IH]; simpl.
  - intros _. by exists 0.
  - intros (k & Hk & Hbits)%IH. exists (S k). split; [lia|].
    simpl. by rewrite <-Hbits.
  - intros H%forallb_negb_replicate. exists 0. split; [lia|].
    simpl. by rewrite <-H.
Qed.

(** ** Validators: the claims *)

(** C7. [validate_subnet_mask] returns (it never raises), and it returns
    [True] exactly when [validate_ipv4] accepts the string and the 32-bit
    binary expansion of its four octets has no 0 bit followed later by a 1
    bit; the expansion is then a run of ones followed by a run of zeros.
    ["255.255.255.0"] is accepted and ["255.0.255.0"] is rejected. *)
Theorem validate_subnet_mask_contiguous :
  (∀ s : string, ∃ b : bool,
      validate_subnet_mask s = Ok b
      ∧ (b = true ↔ validate_ipv4 s = Ok true ∧ no_zero_before_one (mask_bits s))
      ∧ (b = true → ∃ k, k ≤ 32
           ∧ mask_bits s = replicate k true ++ replicate (32 - k) false))
  ∧ validate_subnet_mask "255.255.255.0" = Ok true
  ∧ validate_subnet_mask "255.0.255.0" = Ok false.
Proof.
  split; [|split; vm_compute; reflexivity].
  intros s. eexists. split; [apply validate_subnet_mask_decides|].
  rewrite validate_ipv4_dotted_quad, andb_true_iff, ones_then_zeros_spec.
  split.
  - split; [intros [-> ?]; done|]. intros [[= ->] ?]. done.
  - intros [Hq Hrun]. pose proof (mask_bits_length s Hq) as Hlen.
    apply ones_then_zeros_spec, ones_then_zeros_run in Hrun.
    rewrite Hlen in Hrun. done.
Qed.

(** C8 as worded fails: [validate_ipv4] accepts a dotted quad with white
    space around it, which is not four dot-separated groups of digits. *)
Lemma validate_ipv4_accepts_padded :
  validate_ipv4 " 10.0.0.1 " = Ok true ∧ dotted_quad " 10.0.0.1 " = false.
Proof. split; vm_compute; reflexivity. Qed.

(** C8, amended. [validate_ipv4] returns (it never raises), and it returns
    [True] exactly when its argument, with leading and trailing white space
    removed, consists of four dot-separated groups of 1 to 3 digits, each
    numerically at most 255. ["255.255.255.0"] is accepted; ["256.1.1.1"]
    and ["1.2.3"] are rejected. *)
Theorem validate_ipv4_stripped_quad :
  (∀ s : string, validate_ipv4 s = Ok (dotted_quad (strip s)))
  ∧ validate_ipv4 "255.255.255.0" = Ok true
  ∧ validate_ipv4 "256.1.1.1" = Ok false
  ∧ validate_ipv4 "1.2.3" = Ok false.
Proof.
  split; [apply validate_ipv4_dotted_quad|].
  repeat split; vm_compute; reflexivity.
Qed.

(** C10. Both validators give on a string what they give on the string with
    leading and trailing white space removed; [" 10.0.0.1 "] is accepted as an
    address and [" 255.255.255.0 "] as a mask. *)
Theorem validators_strip_first :
  (∀ s : string, validate_ipv4 s = validate_ipv4 (strip s))
  ∧ (∀ s : string, validate_subnet_mask s = validate_subnet_mask (strip s))
  ∧ validate_ipv4 " 10.0.0.1 " = Ok true
  ∧ validate_subnet_mask " 255.255.255.0 " = Ok true.
Proof.
  split; [intros s; by rewrite validate_ipv4_strip|].
  split; [intros s; by rewrite validate_subnet_mask_strip|].
  split; vm_compute; reflexivity.
Qed.

(** ** The route table parser *)

Section parser_facts.
Implicit Types (s line : string) (lines : list string).
Implicit Types routes : list (gmap string string).

Lemma split_ws_lstrip s : split_ws (lstrip s) = split_ws s.
Proof.
  induction s as [|c s IH]; [done|]. cbn [lstrip].
  destruct (is_space c) eqn:Hc; [|done]. cbn [split_ws]. by rewrite Hc.
Qed.

Lemma rstrip_first x t a r : rstrip (String x t) = String a r → a = x.
Proof.
  cbn [rstrip]. destruct (rstrip t); [destruct (is_space x)|]; congruence.
Qed.

Lemma split_ws_rstrip s : split_ws (rstrip s) = split_ws s.
Proof.
  induction s as [|c s IH]; [done|]. cbn [rstrip].
  destruct (rstrip s) as [|a r] eqn:Hr.
  - cbn in IH. destruct (is_space c) eqn:Hc; cbn [split_ws]; rewrite Hc, <-?IH.
    + done.
    + destruct s as [|c' s']; [done|]. by destruct (is_space c').
  - destruct s as [|x t]; [done|].
    apply rstrip_first in Hr as Heq. subst a.
    cbn [split_ws] in *. destruct (is_space c); [done|].
    fold (split_ws (String x r)) in *. fold (split_ws (String x t)) in *.
    by rewrite IH.
Qed.

Lemma split_ws_strip s : split_ws (strip s) = split_ws s.
Proof. unfold strip. by rewrite split_ws_rstrip, split_ws_lstrip. Qed.

Lemma index_lookup_total (parts : list string) i :
  i < length parts → index parts i = Ok (parts !!! i).
Proof.
  intros Hi. unfold index. destruct (lookup_lt_is_Some_2 parts i Hi) as [x Hx].
  rewrite Hx. by rewrite (list_lookup_total_correct _ _ _ Hx).
Qed.

(** With five fields or more the body of the [try] never raises: the
    [except] clause of the source is never taken. *)
Lemma parse_row_five line routes :
  5 ≤ length (split_ws line) →
  parse_row (split_ws line) routes
  = Ok (if first_field_ok line then routes ++ [row_entry line] else routes).
Proof.
  intros Hlen.
  assert ((4 <? length (split_ws line)) = true) as Hlt by (apply Nat.ltb_lt; lia).
  pose proof (index_lookup_total (split_ws line) 0 ltac:(lia)) as H0.
  pose proof (index_lookup_total (split_ws line) 1 ltac:(lia)) as H1.
  pose proof (index_lookup_total (split_ws line) 2 ltac:(lia)) as H2.
  pose proof (index_lookup_total (split_ws line) 3 ltac:(lia)) as H3.
  pose proof (index_lookup_total (split_ws line) 4 ltac:(lia)) as H4.
  unfold parse_row, first_field_ok, row_entry, validates_ipv4.
  destruct (split_ws line) as [|field0 fields] eqn:Hs; [simpl in Hlen; lia|].
  change ((field0 :: fields) !!! 0) with field0 in *.
  rewrite H0, H1, H2, H3, Hlt, H4. cbn [mbind res_bind].
  rewrite !validate_ipv4_dotted_quad.
  destruct (dotted_quad (strip field0)); cbn [mbind res_bind orb]; [done|].
  by case_bool_decide.
Qed.

Lemma parse_lines_spec lines (in_active_routes : bool) routes :
  parse_lines lines in_active_routes routes
  = Ok (routes ++ (row_entry <$> filter (λ line, row_ok line = true)
                                   (section_from in_active_routes lines))).
Proof.
  revert in_active_routes routes.
  induction lines as [|line lines IH]; intros b routes.
  { destruct b; cbn; by rewrite app_nil_r. }
  cbn [parse_lines].
  destruct (contains "Active Routes:" line) eqn:Hact.
  { rewrite IH. unfold section_from. cbn [until_persistent].
    unfold persistent_marker, active_marker. rewrite Hact, andb_false_r.
    destruct b.
    - rewrite filter_cons_False; [done|].
      unfold row_ok, active_marker. by rewrite Hact.
    - cbn [after_active]. unfold active_marker. by rewrite Hact. }
  destruct (contains "Persistent Routes:" line) eqn:Hper.
  { unfold section_from. cbn [until_persistent].
    unfold persistent_marker, active_marker. rewrite Hact, Hper.
    destruct b; cbn; by rewrite app_nil_r. }
  assert (section_from b (line :: lines)
          = if b then line :: section_from b lines else section_from b lines)
    as Hsec.
  { unfold section_from. cbn [until_persistent].
    unfold persistent_marker, active_marker. rewrite Hact, Hper.
    destruct b; [done|]. cbn [andb after_active].
    unfold active_marker. by rewrite Hact. }
  rewrite Hsec. destruct b; cbn [negb]; [|apply IH].
  destruct (contains "Network Destination" line) eqn:Hhdr;
    [|destruct (contains "==" line) eqn:Hsep;
      [|destruct (truthy (strip line)) eqn:Hblank; cbn [negb];
        [rewrite split_ws_strip;
         destruct (5 <=? length (split_ws line)) eqn:Hlen;
         [rewrite parse_row_five by (by apply Nat.leb_le);
          destruct (first_field_ok line) eqn:Hfirst|]|]]].
  all: rewrite IH.
  all: first
    [ rewrite filter_cons_False;
      [done|unfold row_ok, active_marker;
            rewrite Hact, ?Hhdr, ?Hsep, ?Hblank, ?Hlen, ?Hfirst; cbn; congruence]
    | idtac ].
  rewrite filter_cons_True, fmap_cons.
  - by rewrite <-app_assoc.
  - unfold row_ok, active_marker.
    by rewrite Hact, Hhdr, Hsep, Hblank, Hlen, Hfirst.
Qed.

Lemma parse_route_print_spec (output : string) :
  parse_route_print output = Ok (expected_routes output).
Proof. unfold parse_route_print. by rewrite parse_lines_spec. Qed.

Lemma row_entry_fields line :
  row_entry line !! "destination" = Some (split_ws line !!! 0)
  ∧ row_entry line !! "netmask" = Some (split_ws line !!! 1)
  ∧ row_entry line !! "gateway" = Some (split_ws line !!! 2)
  ∧ row_entry line !! "interface" = Some (split_ws line !!! 3)
  ∧ row_entry line !! "metric" = Some (split_ws line !!! 4).
Proof. unfold row_entry. repeat split; reflexivity. Qed.

End parser_facts.

(** C5 as worded fails: a row between the markers that is not the column
    header, not made of [=] characters only, not blank, has five fields and a
    valid first field, but contains [==], is skipped by the parser. *)
Lemma parse_route_print_skips_row_with_equals :
  parse_route_print table_with_equals_in_row = Ok []
  ∧ worded_routes table_with_equals_in_row
    = [row_entry "10.0.0.0 255.0.0.0 10.0.0.1 a==b 5"]
  ∧ row_entry "10.0.0.0 255.0.0.0 10.0.0.1 a==b 5" !! "destination" = Some "10.0.0.0".
Proof. repeat split; vm_compute; reflexivity. Qed.

(** C5, amended. For every input text the parser returns (it never raises),
    in input order, exactly one entry for each line that comes after the first
    line containing ["Active Routes:"] and before the first line containing
    ["Persistent Routes:"] and not ["Active Routes:"] (to the end of the input
    when there is none), and
    that contains none of ["Active Routes:"], ["Network Destination"] and
    ["=="], is not blank, splits into at least 5 white-space separated fields,
    and whose first field validates as IPv4 or equals ["0.0.0.0"]; the first
    five fields map positionally to destination, netmask, gateway, interface
    and metric. Every other line is skipped. *)
Theorem parse_route_print_rows :
  (∀ output : string,
     parse_route_print output
     = Ok (row_entry <$> filter (λ line, row_ok line = true)
                                (active_section (split nl output))))
  ∧ (∀ line : string,
       row_entry line !! "destination" = Some (split_ws line !!! 0)
       ∧ row_entry line !! "netmask" = Some (split_ws line !!! 1)
       ∧ row_entry line !! "gateway" = Some (split_ws line !!! 2)
       ∧ row_entry line !! "interface" = Some (split_ws line !!! 3)
       ∧ row_entry line !! "metric" = Some (split_ws line !!! 4)).
Proof. split; [apply parse_route_print_spec|apply row_entry_fields]. Qed.

(** ** The refresh cycle *)

Section refresh_facts.
Implicit Types (st : St) (env : Env).

Lemma get_persistent_routes_run env st :
  get_persistent_routes env st
  = (Ok (fetched_persistent (os_run env (length (run_calls st)) print_command)),
     ran_print st).
Proof.
  unfold get_persistent_routes, try_except, mbind, M_bind, subprocess_run,
    fetched_persistent, ran_print, print_command.
  destruct (os_run env (length (run_calls st)) ["route"; "print"; "-4"])
    as [result|msg|msg]; [|done|done].
  by destruct (returncode result =? 0)%Z.
Qed.

Lemma for_each_snapshot (P : gset string) (routes : list (gmap string string)) st :
  for_each routes (append_entry P) st
  = (Ok (), set_all_routes_data
              (all_routes_data st ++ (snapshot_entry P <$> routes)) st).
Proof.
  revert st. induction routes as [|route routes IH]; intros st.
  - cbn. rewrite app_nil_r. by destruct st.
  - cbn [for_each]. unfold mbind, M_bind. unfold append_entry at 1, modify.
    rewrite IH. destruct st. cbn. by rewrite <-app_assoc.
Qed.

Lemma update_tab_counts_run st :
  update_tab_counts st
  = (Ok (), set_tab_buttons (tab_texts (all_routes_data st) (tab_buttons st)) st).
Proof. by destruct st. Qed.

Lemma insert_row_run (route : gmap string string) st :
  insert_row route st
  = (Ok (), if visible (current_filter st) route
            then set_routes_tree (routes_tree st ++ [tree_row route]) st
            else st).
Proof.
  unfold insert_row, visible, mbind, M_bind, gets, modify, mret, M_ret.
  destruct (bool_decide (current_filter st = "persistent")
            && negb (bool_decide (route !! "persistent" = Some "Yes"))); [done|].
  by destruct (bool_decide (current_filter st = "temporary")
               && negb (bool_decide (route !! "persistent" = Some "No"))).
Qed.

Lemma for_each_rows (data : list (gmap string string)) st :
  for_each data insert_row st
  = (Ok (), set_routes_tree
              (routes_tree st ++ visible_rows (current_filter st) data) st).
Proof.
  revert st. induction data as [|route data IH]; intros st.
  - cbn. rewrite app_nil_r. by destruct st.
  - cbn [for_each]. unfold mbind, M_bind. rewrite insert_row_run, IH.
    unfold visible_rows.
    destruct (visible (current_filter st) route) eqn:Hvis.
    + rewrite filter_cons_True by done. destruct st. cbn. by rewrite <-app_assoc.
    + by rewrite filter_cons_False by (by rewrite Hvis).
Qed.

Lemma filter_routes_run st :
  filter_routes st
  = (Ok (), set_routes_tree
              (visible_rows (current_filter st) (all_routes_data st)) st).
Proof.
  unfold filter_routes, mbind, M_bind, modify, gets.
  rewrite for_each_rows. by destruct st.
Qed.

(** A refresh cycle never raises, and its effect on the state is
    [refreshed]. *)
Lemma refresh_routes_run env st :
  refresh_routes env st = (Ok (), refreshed env st).
Proof.
  unfold refresh_routes, refreshed, refreshed_with, try_except.
  unfold mbind at 1. unfold M_bind at 1. unfold subprocess_run at 1.
  fold print_command. fold (ran_print st).
  destruct (os_run env (length (run_calls st)) print_command)
    as [result|msg|msg]; [|done|done].
  destruct (returncode result =? 0)%Z; [|done].
  unfold mbind at 1. unfold M_bind at 1. unfold lift at 1.
  rewrite parse_route_print_spec.
  unfold mbind at 1. unfold M_bind at 1.
  rewrite get_persistent_routes_run.
  replace (length (run_calls (ran_print st))) with (S (length (run_calls st)))
    by (destruct st; cbn; rewrite length_app; cbn; lia).
  unfold mbind at 1. unfold M_bind at 1. unfold modify at 1.
  unfold mbind at 1. unfold M_bind at 1. rewrite for_each_snapshot.
  unfold mbind at 1. unfold M_bind at 1. rewrite update_tab_counts_run.
  rewrite filter_routes_run.
  unfold published, ran_print. destruct st. cbn. by rewrite <-app_assoc.
Qed.

End refresh_facts.

Section refresh_claims.
Implicit Types (st : St) (env : Env).

Lemma classify_cases (P : gset string) (dest : string) :
  (classify P dest = "Yes" ↔ dest ∈ P)
  ∧ (dest ∉ P → dest ∈ well_known → classify P dest = "Unknown")
  ∧ (dest ∉ P → dest ∉ well_known → classify P dest = "No").
Proof.
  unfold classify. repeat split.
  - case_bool_decide; [done|]. by case_bool_decide.
  - intros HP. by rewrite bool_decide_eq_true_2.
  - intros HP Hwk. by rewrite bool_decide_eq_false_2, bool_decide_eq_true_2.
  - intros HP Hwk. by rewrite !bool_decide_eq_false_2.
Qed.

Lemma snapshot_entry_fields (P : gset string) (route : gmap string string) :
  snapshot_entry P route !! "destination" = Some (default_get route "destination" "")
  ∧ snapshot_entry P route !! "persistent"
    = Some (classify P (default_get route "destination" "")).
Proof. split; reflexivity. Qed.

Lemma ran_print_calls st : length (run_calls (ran_print st)) = S (length (run_calls st)).
Proof. destruct st. cbn. rewrite length_app. cbn. lia. Qed.

(** C1. After a refresh whose fetch succeeded, every entry of the snapshot
    has a destination, and with the persistent-destination set fetched in the
    same cycle: its persistence is "Yes" exactly when the destination is in
    the set; when it is not in the set, the persistence is "Unknown" for the
    five well-known destinations and "No" for every other one. *)
Theorem refresh_routes_persistence env st result persistent_routes st2 entry :
  os_run env (length (run_calls st)) print_command = Exited result →
  returncode result = 0%Z →
  get_persistent_routes env (ran_print st) = (Ok persistent_routes, st2) →
  entry ∈ all_routes_data (refresh_routes env st).2 →
  ∃ dest : string,
    entry !! "destination" = Some dest
    ∧ (entry !! "persistent" = Some "Yes" ↔ dest ∈ persistent_routes)
    ∧ (dest ∉ persistent_routes → dest ∈ well_known →
       entry !! "persistent" = Some "Unknown")
    ∧ (dest ∉ persistent_routes → dest ∉ well_known →
       entry !! "persistent" = Some "No").
Proof.
  intros Hrun Hrc Hset Hin.
  rewrite get_persistent_routes_run, ran_print_calls in Hset.
  injection Hset as <- _.
  rewrite refresh_routes_run in Hin. unfold refreshed, refreshed_with in Hin.
  rewrite Hrun, Hrc in Hin. cbn in Hin.
  apply list_elem_of_fmap in Hin as (route & -> & _).
  destruct (snapshot_entry_fields
              (fetched_persistent (os_run env (S (length (run_calls st))) print_command))
              route) as [Hd Hp].
  eexists. split; [exact Hd|]. rewrite Hp.
  destruct (classify_cases
              (fetched_persistent (os_run env (S (length (run_calls st))) print_command))
              (default_get route "destination" "")) as (H1 & H2 & H3).
  split; [|split].
  - rewrite <-H1. split; congruence.
  - intros. f_equal. auto.
  - intros. f_equal. auto.
Qed.

(** C2 as worded fails for the second run of the print command in a cycle,
    the one made by [get_persistent_routes]: when it times out after the first
    run succeeded, the refresh does not stop and the previous snapshot (one
    entry) is replaced by a new one (three entries). *)
Lemma refresh_routes_replaces_after_second_failure :
  os_run second_run_timeout_env 1 print_command = TimedOut "timed out after 30 seconds"
  ∧ all_routes_data stale_state = [sample_entry]
  ∧ all_routes_data (refresh_routes second_run_timeout_env stale_state).2
    = snapshot_entry ∅ <$> expected_routes sample_table
  ∧ length (all_routes_data (refresh_routes second_run_timeout_env stale_state).2) = 3.
Proof. repeat split; vm_compute; reflexivity. Qed.

(** C2, amended. When the run of the print command made by [refresh_routes]
    itself fails (the process cannot be spawned, times out, or exits with a
    non-zero code), the refresh returns without raising and stops there: no
    second command is run, and the snapshot, the displayed rows, the tab
    counts and the dialogs shown are those from before. When that run
    succeeds and the run made by [get_persistent_routes] fails, nothing is
    reported either, but the refresh goes on with the empty set of persistent
    destinations and publishes a new snapshot. *)
Theorem refresh_routes_fetch_failure env st :
  (fetch_failed (os_run env (length (run_calls st)) print_command) →
   ∃ st', refresh_routes env st = (Ok (), st')
     ∧ all_routes_data st' = all_routes_data st
     ∧ routes_tree st' = routes_tree st
     ∧ tab_buttons st' = tab_buttons st
     ∧ ui_events st' = ui_events st
     ∧ run_calls st' = run_calls st ++ [print_command])
  ∧ (∀ result,
       os_run env (length (run_calls st)) print_command = Exited result →
       returncode result = 0%Z →
       fetch_failed (os_run env (S (length (run_calls st))) print_command) →
       ∃ st', refresh_routes env st = (Ok (), st')
         ∧ all_routes_data st' = snapshot_entry ∅ <$> expected_routes (stdout result)
         ∧ ui_events st' = ui_events st
         ∧ run_calls st' = run_calls st ++ [print_command; print_command]).
Proof.
  split.
  - intros Hfail. exists (ran_print st). rewrite refresh_routes_run.
    split; [|by destruct st]. f_equal. unfold refreshed, refreshed_with.
    destruct (os_run env (length (run_calls st)) print_command)
      as [result|msg|msg]; [|done|done].
    cbn in Hfail. apply Z.eqb_neq in Hfail. by rewrite Hfail.
  - intros result Hrun Hrc Hfail.
    exists (published (expected_routes (stdout result)) ∅ st).
    split; [|by destruct st]. rewrite refresh_routes_run.
    unfold refreshed, refreshed_with. rewrite Hrun, Hrc. cbn. do 2 f_equal.
    destruct (os_run env (S (length (run_calls st))) print_command)
      as [result2|msg|msg]; [|done|done].
    cbn in *. apply Z.eqb_neq in Hfail. by rewrite Hfail.
Qed.

End refresh_claims.

Lemma refresh_routes_persistence_witness :
  ∃ dest : string,
    sample_entry !! "destination" = Some dest
    ∧ (sample_entry !! "persistent" = Some "Yes" ↔ dest ∈ ({["0.0.0.0"]} : gset string))
    ∧ (dest ∉ ({["0.0.0.0"]} : gset string) → dest ∈ well_known →
       sample_entry !! "persistent" = Some "Unknown")
    ∧ (dest ∉ ({["0.0.0.0"]} : gset string) → dest ∉ well_known →
       sample_entry !! "persistent" = Some "No").
Proof.
  apply (refresh_routes_persistence sample_env initial_state sample_result
           {["0.0.0.0"]} (ran_print (ran_print initial_state)) sample_entry).
  - reflexivity.
  - reflexivity.
  - vm_cast_no_check
      (eq_refl (Ok ({["0.0.0.0"]} : gset string), ran_print (ran_print initial_state))).
  - apply (list_elem_of_lookup_2 _ 0).
    vm_cast_no_check (eq_refl (Some sample_entry)).
Defined.

Lemma refresh_routes_fetch_failure_witness :
  ∃ st', refresh_routes timeout_env stale_state = (Ok (), st')
    ∧ all_routes_data st' = all_routes_data stale_state
    ∧ routes_tree st' = routes_tree stale_state
    ∧ tab_buttons st' = tab_buttons stale_state
    ∧ ui_events st' = ui_events stale_state
    ∧ run_calls st' = run_calls stale_state ++ [print_command].
Proof.
  apply (proj1 (refresh_routes_fetch_failure timeout_env stale_state)).
  simpl. exact I.
Defined.

(** ** The mutation gateway *)

Section gateway_facts.
Implicit Types (st : St) (env : Env) (form : AddForm).

Lemma bind_run {A B} (m : M A) (f : A → M B) st :
  (m ≫= f) st
  = match m st with
    | (Ok a, st') => f a st'
    | (Raise e, st') => (Raise e, st')
    end.
Proof. reflexivity. Qed.

Lemma invalid_field_valid (validate : string → res bool) (s : string) st :
  truthy s = true → validate s = Ok true →
  invalid_field validate s st = (Ok false, st).
Proof.
  intros Hs Hv. unfold invalid_field. rewrite Hs. cbn [negb].
  rewrite bind_run. unfold lift. by rewrite Hv.
Qed.

(** The text [log_command] writes is one record. *)
Lemma log_writes_record (timestamp command out err : string) (success : bool) :
  foldr String.app ""
    ([nl +:+ equals_signs 60 +:+ nl;
      "[" +:+ timestamp +:+ "] " +:+ (if success then "SUCCESS" else "FAILED") +:+ nl;
      "Command: " +:+ command +:+ nl]
     ++ (if truthy (strip out) then ["STDOUT:" +:+ nl +:+ out +:+ nl] else [])
     ++ (if truthy (strip err) then ["STDERR:" +:+ nl +:+ err +:+ nl] else []))
  = log_record timestamp command out err success.
Proof.
  unfold log_record.
  destruct (truthy (strip out)), (truthy (strip err)); cbn [fold_right List.app];
    rewrite ?app_assoc_str, ?app_empty_r, ?app_empty_l; reflexivity.
Qed.

(** [log_command] reads the clock, then opens the audit log: it raises what
    the file operation raises, and leaves in the file what was written. *)
Lemma log_command_run env (command out err : string) (success : bool) st :
  log_command env command out err success st
  = (file_result (file_op env (file_ops st) LOG_FILE),
     set_log_file
       (log_file st +:+
          written_part (file_op env (file_ops st) LOG_FILE)
            (log_record (now env (clock_reads st)) command out err success))
       (set_file_ops (S (file_ops st)) (set_clock_reads (S (clock_reads st)) st))).
Proof.
  unfold log_command. rewrite bind_run. unfold strftime_now at 1.
  unfold open_append_log. rewrite log_writes_record.
  cbn [file_ops set_clock_reads log_file].
  destruct (file_op env (file_ops st) LOG_FILE) as [|msg|msg written];
    unfold file_result; cbn [failure_text written_part]; f_equal.
  rewrite app_empty_r. by destruct st.
Qed.

Lemma confirm_run env form st :
  (persistent_var form = true → answer env (length (ui_events st)) = true) →
  (if persistent_var form
   then askyesno env "Confirm" "This route will persist across reboots. Continue?"
   else mret true) st
  = (Ok true, set_ui_events (ui_events st ++ confirm_events form) st).
Proof.
  intros Hc. unfold confirm_events. destruct (persistent_var form).
  - unfold askyesno. by rewrite Hc.
  - unfold mret, M_ret. rewrite app_nil_r. by destruct st.
Qed.

Lemma iface_name_run form st :
  (if truthy (interface_var form)
   then lift (index (split " (" (interface_var form)) 0)
   else mret "N/A") st
  = (Ok (iface_name_of form), st).
Proof.
  unfold iface_name_of. destruct (truthy (interface_var form)); [|done].
  unfold lift, index. by rewrite split_head_total.
Qed.

(** What [do_add] does once the form is accepted and the command has
    exited. *)
Lemma do_add_exited env form st result :
  add_accepted env form st →
  os_run env (length (run_calls st)) (add_command form) = Exited result →
  do_add env form st = (Ok (), add_exited env form result st).
Proof.
  intros (Hd1 & Hd2 & Hm1 & Hm2 & Hg1 & Hg2 & Hc) Hrun.
  unfold do_add.
  rewrite bind_run, (invalid_field_valid _ _ _ Hd1 Hd2).
  rewrite bind_run, (invalid_field_valid _ _ _ Hm1 Hm2).
  rewrite bind_run, (invalid_field_valid _ _ _ Hg1 Hg2).
  rewrite bind_run, (confirm_run _ _ _ Hc). cbn [negb].
  unfold try_except. rewrite bind_run. unfold subprocess_run at 1.
  cbn [run_calls set_ui_events]. rewrite Hrun.
  rewrite bind_run, log_command_run.
  cbn [file_ops set_run_calls set_ui_events]. unfold add_exited, file_result.
  destruct (file_op env (file_ops st) LOG_FILE) as [|msg|msg written] eqn:Hlog;
    cbn [failure_text written_part].
  - destruct (returncode result =? 0)%Z eqn:Hrc.
    + rewrite bind_run, iface_name_run.
      rewrite bind_run. unfold strftime_now at 1. cbv beta iota.
      rewrite bind_run. unfold modify at 1. cbv beta iota.
      rewrite bind_run. unfold gets at 1. cbv beta iota.
      rewrite bind_run. unfold save_added_routes at 1.
      cbn [file_ops set_added_routes set_clock_reads set_log_file set_file_ops
             set_run_calls set_ui_events].
      destruct (file_op env (S (file_ops st)) ADDED_ROUTES_FILE)
        as [|msg|msg written] eqn:Hsave; cbn [failure_text].
      * rewrite bind_run. unfold showinfo, modify at 1. cbv beta iota.
        rewrite bind_run. unfold dialog_destroy, modify at 1. cbv beta iota.
        rewrite refresh_routes_run. do 2 f_equal.
        unfold add_recorded, add_logged, added_record. rewrite Hrc.
        destruct st. cbn. by rewrite <-app_assoc.
      * unfold showerror, modify, str_exn. f_equal.
        unfold add_save_failed, add_logged, added_record. rewrite Hrc, Hsave.
        by destruct st.
      * unfold showerror, modify, str_exn. f_equal.
        unfold add_save_failed, add_logged, added_record. rewrite Hrc, Hsave.
        by destruct st.
    + unfold showerror, modify. cbv beta iota. f_equal.
      unfold add_rejected, add_logged, failure_detail. rewrite Hrc.
      by destruct st.
  - unfold showerror, modify, str_exn. f_equal.
    unfold add_log_failed. rewrite Hlog.
    destruct st. cbn. by rewrite <-app_assoc.
  - unfold showerror, modify, str_exn. f_equal.
    unfold add_log_failed. rewrite Hlog.
    destruct st. cbn. by rewrite <-app_assoc.
Qed.

(** What [do_delete] does once the destination is accepted and the command
    has exited. *)
Lemma do_delete_exited env (dest_entry : string) st result :
  delete_accepted env dest_entry st →
  os_run env (length (run_calls st)) (delete_command dest_entry) = Exited result →
  do_delete env dest_entry st = (Ok (), delete_exited env dest_entry result st).
Proof.
  intros (Hd1 & Hd2 & Hc) Hrun. unfold do_delete.
  rewrite bind_run, (invalid_field_valid _ _ _ Hd1 Hd2).
  rewrite bind_run. unfold askyesno at 1. rewrite Hc. cbn [negb].
  unfold try_except. rewrite bind_run. unfold subprocess_run at 1.
  cbn [run_calls set_ui_events]. fold (delete_command dest_entry). rewrite Hrun.
  rewrite bind_run, log_command_run.
  cbn [file_ops set_run_calls set_ui_events]. unfold delete_exited, file_result.
  destruct (file_op env (file_ops st) LOG_FILE) as [|msg|msg written] eqn:Hlog;
    cbn [failure_text written_part]; cbv zeta.
  - destruct (returncode result =? 0)%Z eqn:Hrc.
    + rewrite bind_run. unfold showinfo, modify at 1. cbv beta iota.
      rewrite bind_run. unfold dialog_destroy, modify at 1. cbv beta iota.
      rewrite refresh_routes_run. do 2 f_equal.
      unfold delete_logged. rewrite Hrc. destruct st. cbn. by rewrite <-app_assoc.
    + unfold showerror, modify. cbv beta iota. f_equal.
      unfold delete_logged, failure_detail. rewrite Hrc. by destruct st.
  - unfold showerror, modify, str_exn. f_equal.
    unfold delete_log_failed. rewrite Hlog.
    destruct st. cbn. by rewrite <-app_assoc.
  - unfold showerror, modify, str_exn. f_equal.
    unfold delete_log_failed. rewrite Hlog.
    destruct st. cbn. by rewrite <-app_assoc.
Qed.

(** A refresh touches neither the ledger, nor the audit log, nor the dialogs,
    nor the clock. *)
Lemma refreshed_frame env st :
  added_routes (refreshed env st) = added_routes st
  ∧ ledger_file (refreshed env st) = ledger_file st
  ∧ log_file (refreshed env st) = log_file st
  ∧ ui_events (refreshed env st) = ui_events st
  ∧ clock_reads (refreshed env st) = clock_reads st.
Proof.
  unfold refreshed, refreshed_with.
  destruct (os_run env (length (run_calls st)) print_command)
    as [result|msg|msg]; [|by destruct st..].
  destruct (returncode result =? 0)%Z; by destruct st.
Qed.



End gateway_facts.

Section gateway_claims.
Implicit Types (st : St) (env : Env) (form : AddForm).


Lemma sample_form_rejected_accepted :
  add_accepted silent_failure_env sample_form initial_state.
Proof.
  repeat split; vm_compute; reflexivity.
Defined.










(** A persistent add of a padded destination, confirmed by the operator:
    the command line carries [-p] and the stripped fields, and the record
    stores the text "Yes". *)
Example do_add_persistent_example :
  add_command sample_persistent_form
  = ["route"; "-p"; "add"; "10.0.0.0"; "mask"; "255.255.255.0"; "10.0.0.1"]
  ∧ added_routes (do_add sample_env sample_persistent_form initial_state).2
    = [added_record sample_persistent_form (sample_clock 1)]
  ∧ added_record sample_persistent_form (sample_clock 1) !! "persistent"
    = Some (VStr "Yes")
  ∧ added_record sample_persistent_form (sample_clock 1) !! "interface"
    = Some (VStr "N/A").
Proof. repeat split; vm_compute; reflexivity. Qed.

(** A command that times out is shown to the operator and leaves no record
    in the audit log. *)
Example do_add_timeout_example :
  (do_add timeout_env sample_form initial_state).1 = Ok ()
  ∧ ui_events (do_add timeout_env sample_form initial_state).2
    = [ShowError "Error" "timed out after 30 seconds"]
  ∧ log_file (do_add timeout_env sample_form initial_state).2 = ""
  ∧ added_routes (do_add timeout_env sample_form initial_state).2 = [].
Proof. repeat split; vm_compute; reflexivity. Qed.

End gateway_claims.

(** * Further properties *)

(** ** The gateway in every case *)

Section gateway_total.
Implicit Types (st : St) (env : Env) (form : AddForm).

Lemma validates_mask_decides (s : string) :
  validate_subnet_mask s = Ok (validates_mask s).
Proof. unfold validates_mask. by rewrite validate_subnet_mask_decides. Qed.

Lemma validates_ipv4_decides (s : string) :
  validate_ipv4 s = Ok (validates_ipv4 s).
Proof. unfold validates_ipv4. by rewrite validate_ipv4_dotted_quad. Qed.

Lemma invalid_field_run (validate : string → res bool) (valid : string → bool)
    (s : string) st :
  (∀ x, validate x = Ok (valid x)) →
  invalid_field validate s st = (Ok (field_rejected valid s), st).
Proof.
  intros Hv. unfold invalid_field, field_rejected.
  destruct (truthy s); cbn [negb orb]; [|done].
  rewrite bind_run. unfold lift. by rewrite Hv.
Qed.

Lemma add_refusal_None env form st :
  add_refusal env form st = None → add_accepted env form st.
Proof.
  unfold add_refusal, add_accepted, field_rejected.
  rewrite !validates_ipv4_decides, validates_mask_decides.
  destruct (truthy (strip (entry_dest form))); cbn [negb orb]; [|done].
  destruct (validates_ipv4 (strip (entry_dest form))); cbn [negb]; [|done].
  destruct (truthy (strip (entry_mask form))); cbn [negb orb]; [|done].
  destruct (validates_mask (strip (entry_mask form))); cbn [negb]; [|done].
  destruct (truthy (strip (entry_gateway form))); cbn [negb orb]; [|done].
  destruct (validates_ipv4 (strip (entry_gateway form))); cbn [negb]; [|done].
  destruct (persistent_var form); cbn [andb].
  - destruct (answer env (length (ui_events st))); cbn [negb]; [|done].
    intros _. by repeat split.
  - intros _. by repeat split.
Qed.

(** [do_add] never raises, and leaves the state [add_state]. *)
Lemma do_add_run env form st : do_add env form st = (Ok (), add_state env form st).
Proof.
  unfold add_state.
  destruct (add_refusal env form st) as [events|] eqn:Href.
  - unfold do_add, add_refusal in *.
    rewrite bind_run, (invalid_field_run _ _ _ _ validates_ipv4_decides).
    destruct (field_rejected validates_ipv4 (strip (entry_dest form)));
      [by injection Href as <-|].
    rewrite bind_run, (invalid_field_run _ _ _ _ validates_mask_decides).
    destruct (field_rejected validates_mask (strip (entry_mask form)));
      [by injection Href as <-|].
    rewrite bind_run, (invalid_field_run _ _ _ _ validates_ipv4_decides).
    destruct (field_rejected validates_ipv4 (strip (entry_gateway form)));
      [by injection Href as <-|].
    rewrite bind_run. unfold confirm_events in *.
    destruct (persistent_var form); [|done]. unfold askyesno at 1.
    cbn [andb] in Href.
    destruct (answer env (length (ui_events st))); [done|].
    by injection Href as <-.
  - apply add_refusal_None in Href as Hacc.
    destruct (os_run env (length (run_calls st)) (add_command form))
      as [result|msg|msg] eqn:Hrun; [by apply do_add_exited|..].
    all: destruct Hacc as (Hd1 & Hd2 & Hm1 & Hm2 & Hg1 & Hg2 & Hc).
    all: unfold do_add.
    all: rewrite bind_run, (invalid_field_valid _ _ _ Hd1 Hd2).
    all: rewrite bind_run, (invalid_field_valid _ _ _ Hm1 Hm2).
    all: rewrite bind_run, (invalid_field_valid _ _ _ Hg1 Hg2).
    all: rewrite bind_run, (confirm_run _ _ _ Hc); cbn [negb].
    all: unfold try_except; rewrite bind_run; unfold subprocess_run at 1.
    all: cbn [run_calls set_ui_events]; rewrite Hrun.
    all: unfold showerror, modify, command_raised, str_exn.
    all: destruct st; cbn; by rewrite <-app_assoc.
Qed.

(** [do_delete] never raises, and leaves the state [delete_state]. *)
Lemma do_delete_run env (dest_entry : string) st :
  do_delete env dest_entry st = (Ok (), delete_state env dest_entry st).
Proof.
  unfold delete_state.
  destruct (field_rejected validates_ipv4 (strip dest_entry)) eqn:Hrej.
  { unfold do_delete.
    by rewrite bind_run, (invalid_field_run _ _ _ _ validates_ipv4_decides), Hrej. }
  destruct (answer env (length (ui_events st))) eqn:Hans; cbn [negb].
  - assert (delete_accepted env dest_entry st) as Hacc.
    { unfold delete_accepted, field_rejected in *.
      rewrite validates_ipv4_decides.
      destruct (truthy (strip dest_entry)); [|done].
      by destruct (validates_ipv4 (strip dest_entry)). }
    destruct (os_run env (length (run_calls st)) (delete_command dest_entry))
      as [result|msg|msg] eqn:Hrun; [by apply do_delete_exited|..].
    all: unfold do_delete.
    all: rewrite bind_run, (invalid_field_run _ _ _ _ validates_ipv4_decides), Hrej.
    all: rewrite bind_run; unfold askyesno at 1; rewrite Hans; cbn [negb].
    all: unfold try_except; rewrite bind_run; unfold subprocess_run at 1.
    all: cbn [run_calls set_ui_events]; fold (delete_command dest_entry).
    all: rewrite Hrun.
    all: unfold showerror, modify, command_raised, str_exn, delete_question.
    all: destruct st; cbn; by rewrite <-app_assoc.
  - unfold do_delete.
    rewrite bind_run, (invalid_field_run _ _ _ _ validates_ipv4_decides), Hrej.
    rewrite bind_run. unfold askyesno at 1. by rewrite Hans.
Qed.

Lemma switch_tab_run (tab_id : string) st :
  switch_tab tab_id st
  = (Ok (), set_routes_tree (visible_rows tab_id (all_routes_data st))
              (set_current_filter tab_id st)).
Proof.
  unfold switch_tab. rewrite bind_run. unfold modify at 1.
  rewrite filter_routes_run. by destruct st.
Qed.


End gateway_total.

Section gateway_more.
Implicit Types (st : St) (env : Env) (form : AddForm).

Lemma add_refusal_Some_single env form st events :
  add_refusal env form st = Some events → ∃ ev, events = [ev].
Proof.
  unfold add_refusal, confirm_events.
  repeat (destruct (field_rejected _ _); [intros [= <-]; eauto|]).
  destruct (persistent_var form); cbn [andb]; [|done].
  destruct (negb _); [|done]. intros [= <-]. eauto.
Qed.

Lemma add_accepted_refusal env form st :
  add_accepted env form st → add_refusal env form st = None.
Proof.
  intros (Hd1 & Hd2 & Hm1 & Hm2 & Hg1 & Hg2 & Hc).
  unfold add_refusal, field_rejected, validates_ipv4, validates_mask.
  rewrite Hd1, Hd2, Hm1, Hm2, Hg1, Hg2. cbn.
  destruct (persistent_var form); [|done]. by rewrite Hc.
Qed.

(** X1. When a field of the form fails validation or the operator declines a
    persistent add, [do_add] returns without raising after exactly one dialog:
    no command is run, nothing is logged, and the ledger, its file and the
    snapshot are untouched. *)
Theorem do_add_refused_before_side_effects env form st :
  ¬ add_accepted env form st →
  ∃ st' ev,
    do_add env form st = (Ok (), st')
    ∧ ui_events st' = ui_events st ++ [ev]
    ∧ run_calls st' = run_calls st
    ∧ log_file st' = log_file st
    ∧ added_routes st' = added_routes st
    ∧ ledger_file st' = ledger_file st
    ∧ all_routes_data st' = all_routes_data st.
Proof.
  intros Hno. rewrite do_add_run. unfold add_state.
  destruct (add_refusal env form st) as [events|] eqn:Href.
  - destruct (add_refusal_Some_single _ _ _ _ Href) as [ev ->].
    eexists _, ev. split; [done|]. by destruct st.
  - by apply add_refusal_None in Href.
Qed.

Lemma do_add_refused_before_side_effects_witness :
  ∃ st' ev,
    do_add sample_env bad_mask_form initial_state = (Ok (), st')
    ∧ ui_events st' = ui_events initial_state ++ [ev]
    ∧ run_calls st' = run_calls initial_state
    ∧ log_file st' = log_file initial_state
    ∧ added_routes st' = added_routes initial_state
    ∧ ledger_file st' = ledger_file initial_state
    ∧ all_routes_data st' = all_routes_data initial_state.
Proof.
  apply (do_add_refused_before_side_effects sample_env bad_mask_form initial_state).
  intros (_ & _ & _ & Hmask & _). vm_compute in Hmask. discriminate Hmask.
Defined.

(** X2. When the form is accepted and the command cannot be spawned or times
    out, [do_add] shows the text of the exception and nothing else happens:
    no record is appended to the audit log, the ledger and its file are not
    written, and no refresh is run. *)
Theorem do_add_command_raised env form st (msg : string) :
  add_accepted env form st →
  os_run env (length (run_calls st)) (add_command form) = TimedOut msg
  ∨ os_run env (length (run_calls st)) (add_command form) = SpawnFailed msg →
  ∃ st',
    do_add env form st = (Ok (), st')
    ∧ ui_events st' = ui_events st ++ confirm_events form ++ [ShowError "Error" msg]
    ∧ run_calls st' = run_calls st ++ [add_command form]
    ∧ log_file st' = log_file st
    ∧ added_routes st' = added_routes st
    ∧ ledger_file st' = ledger_file st
    ∧ all_routes_data st' = all_routes_data st.
Proof.
  intros Hacc Hrun. rewrite do_add_run. unfold add_state.
  rewrite (add_accepted_refusal _ _ _ Hacc).
  destruct Hrun as [-> | ->]; eexists; (split; [done|]); by destruct st.
Qed.

Lemma sample_form_accepted_timeout : add_accepted timeout_env sample_form initial_state.
Proof. repeat split; vm_compute; reflexivity. Defined.

Lemma do_add_command_raised_witness :
  ∃ st',
    do_add timeout_env sample_form initial_state = (Ok (), st')
    ∧ ui_events st'
      = ui_events initial_state ++ confirm_events sample_form
        ++ [ShowError "Error" "timed out after 30 seconds"]
    ∧ run_calls st' = run_calls initial_state ++ [add_command sample_form]
    ∧ log_file st' = log_file initial_state
    ∧ added_routes st' = added_routes initial_state
    ∧ ledger_file st' = ledger_file initial_state
    ∧ all_routes_data st' = all_routes_data initial_state.
Proof.
  exact (do_add_command_raised timeout_env sample_form initial_state
           "timed out after 30 seconds" sample_form_accepted_timeout
           (or_introl eq_refl)).
Defined.

(** X3. The ledger only grows, by one record at a time: whatever the form,
    the environment and the state, [do_add] returns without raising and leaves
    the ledger in memory as it was or with exactly one record appended, the
    earlier records unchanged and in place. *)
Theorem do_add_ledger_append_only env form st :
  (do_add env form st).1 = Ok ()
  ∧ (added_routes (do_add env form st).2 = added_routes st
     ∨ ∃ record, added_routes (do_add env form st).2 = added_routes st ++ [record]).
Proof.
  rewrite do_add_run. split; [done|]. cbn [snd]. unfold add_state.
  destruct (add_refusal env form st); [left; by destruct st|].
  destruct (os_run env (length (run_calls st)) (add_command form))
    as [result|msg|msg]; [|left; by destruct st..].
  unfold add_exited.
  destruct (failure_text (file_op env (file_ops st) LOG_FILE));
    [left; by destruct st|].
  destruct (returncode result =? 0)%Z; [|left; by destruct st].
  right. eexists.
  destruct (failure_text (file_op env (S (file_ops st)) ADDED_ROUTES_FILE));
    [by destruct st|].
  destruct (refreshed_frame env (add_recorded env form result st)) as (-> & _).
  by destruct st.
Qed.



(** A refresh runs the print command once or twice and no other command. *)
Lemma refreshed_calls env st :
  ∃ more, run_calls (refreshed env st) = run_calls st ++ more
    ∧ Forall (λ cmd, cmd = print_command) more.
Proof.
  unfold refreshed, refreshed_with.
  destruct (os_run env (length (run_calls st)) print_command)
    as [result|msg|msg].
  - destruct (returncode result =? 0)%Z.
    + exists [print_command; print_command].
      split; [by destruct st|by repeat constructor].
    + exists [print_command]. split; [by destruct st|by repeat constructor].
  - exists [print_command]. split; [by destruct st|by repeat constructor].
  - exists [print_command]. split; [by destruct st|by repeat constructor].
Qed.

(** X5. Deleting a route never touches the ledger: whatever the destination,
    the environment and the state, [do_delete] returns without raising and
    leaves the ledger in memory and its file as they were; it runs at most
    one command, which is [route delete] with the stripped destination. *)
Theorem do_delete_keeps_ledger env (dest_entry : string) st :
  (do_delete env dest_entry st).1 = Ok ()
  ∧ added_routes (do_delete env dest_entry st).2 = added_routes st
  ∧ ledger_file (do_delete env dest_entry st).2 = ledger_file st
  ∧ ∃ calls, run_calls (do_delete env dest_entry st).2
             = run_calls st ++ calls
      ∧ (calls = []
         ∨ ∃ more, calls = ["route"; "delete"; strip dest_entry] :: more
                   ∧ Forall (λ cmd, cmd = print_command) more).
Proof.
  rewrite do_delete_run. split; [done|]. cbn [snd]. unfold delete_state.
  destruct (field_rejected _ _).
  { repeat split; try by destruct st. exists []. rewrite app_nil_r.
    split; [by destruct st|by left]. }
  destruct (negb _).
  { repeat split; try by destruct st. exists []. rewrite app_nil_r.
    split; [by destruct st|by left]. }
  assert (∀ s, run_calls s = run_calls st ++ [delete_command dest_entry] →
            ∃ calls, run_calls s = run_calls st ++ calls
              ∧ (calls = []
                 ∨ ∃ more, calls = ["route"; "delete"; strip dest_entry] :: more
                           ∧ Forall (λ cmd, cmd = print_command) more)) as Hone.
  { intros s Hs. exists [delete_command dest_entry]. split; [done|].
    right. by exists []. }
  destruct (os_run env (length (run_calls st)) (delete_command dest_entry))
    as [result|msg|msg]; [|repeat split; try apply Hone; by destruct st..].
  unfold delete_exited.
  destruct (failure_text (file_op env (file_ops st) LOG_FILE));
    [repeat split; try apply Hone; by destruct st|].
  cbv zeta. destruct (returncode result =? 0)%Z;
    [|repeat split; try apply Hone; by destruct st].
  match goal with |- context [refreshed env ?s] =>
    destruct (refreshed_frame env s) as (-> & -> & _);
    destruct (refreshed_calls env s) as (more & -> & Hmore) end.
  split; [by destruct st|]. split; [by destruct st|].
  exists (delete_command dest_entry :: more).
  split; [destruct st; cbn; by rewrite <-app_assoc|].
  right. by exists more.
Qed.





End gateway_more.

(** ** Fields, parsed routes and the persistent set *)

Section field_facts.
Implicit Types (s w line : string) (lines : list string).

Lemma split_ws_fields s : Forall is_field (split_ws s).
Proof.
  induction s as [|c s IH]; [constructor|]. cbn [split_ws].
  destruct (is_space c) eqn:Hc; [done|].
  destruct s as [|c' s']; [repeat constructor; [done|by cbn; rewrite Hc]|].
  destruct (is_space c') eqn:Hc'.
  - constructor; [split; [done|by cbn; rewrite Hc]|done].
  - destruct (split_ws (String c' s')) as [|w ws].
    + repeat constructor; [done|by cbn; rewrite Hc].
    + inversion IH as [|? ? [Hw1 Hw2] Hws]; subst.
      constructor; [|done]. split; [done|]. cbn. by rewrite Hc, Hw2.
Qed.

Lemma no_space_rstrip w : no_space w = true → rstrip w = w.
Proof.
  induction w as [|c w IH]; [done|]. cbn.
  intros [Hc%negb_true_iff Hw]%andb_prop. rewrite IH by done.
  destruct w; [by rewrite Hc|done].
Qed.

Lemma no_space_strip w : no_space w = true → strip w = w.
Proof.
  intros Hw. unfold strip. destruct w as [|c w]; [done|].
  cbn [lstrip]. cbn in Hw. apply andb_prop in Hw as [Hc%negb_true_iff Hw].
  rewrite Hc. apply no_space_rstrip. cbn. by rewrite Hc, Hw.
Qed.

Lemma validate_ipv4_zero : validates_ipv4 "0.0.0.0" = true.
Proof. vm_compute. reflexivity. Qed.

(** The alternative [parts[0] == '0.0.0.0'] of the source never decides: the
    first field is accepted exactly when it is a dotted quad. *)
Lemma first_field_ok_quad line :
  first_field_ok line = true →
  ∃ field0 fields, split_ws line = field0 :: fields ∧ dotted_quad field0 = true.
Proof.
  unfold first_field_ok. pose proof (split_ws_fields line) as Hf.
  destruct (split_ws line) as [|field0 fields]; [done|].
  inversion Hf as [|? ? [_ Hns] _]; subst.
  intros H. exists field0, fields. split; [done|].
  rewrite validates_ipv4_dotted_quad, (no_space_strip _ Hns) in H.
  apply orb_prop in H as [H|H]; [done|].
  apply bool_decide_eq_true_1 in H as ->. vm_compute. reflexivity.
Qed.

(** X8. Every route the parser returns has exactly the five keys
    destination, netmask, gateway, interface and metric; each value is a
    non-empty field without white space, and the destination is a dotted
    quad as it stands. *)
Theorem parse_route_print_entries (output : string) :
  ∃ routes,
    parse_route_print output = Ok routes
    ∧ Forall (λ route : gmap string string,
        ∃ destination netmask gateway interface metric,
          route = list_to_map [("destination", destination); ("netmask", netmask);
                               ("gateway", gateway); ("interface", interface);
                               ("metric", metric)]
          ∧ dotted_quad destination = true
          ∧ Forall is_field [destination; netmask; gateway; interface; metric])
        routes.
Proof.
  eexists. split; [apply parse_route_print_spec|].
  unfold expected_routes. apply Forall_fmap, Forall_forall.
  intros line [Hok _]%list_elem_of_filter. unfold row_ok in Hok.
  apply andb_prop in Hok as [[_ Hlen%Nat.leb_le]%andb_prop Hfirst].
  apply first_field_ok_quad in Hfirst as (field0 & fields & Hs & Hq).
  pose proof (split_ws_fields line) as Hf. unfold row_entry. cbn.
  rewrite Hs in *.
  destruct fields as [|f1 [|f2 [|f3 [|f4 rest]]]]; cbn in Hlen; try lia.
  exists field0, f1, f2, f3, f4. split; [done|]. split; [done|].
  inversion Hf as [|? ? ? Hf1]; subst. inversion Hf1 as [|? ? ? Hf2]; subst.
  inversion Hf2 as [|? ? ? Hf3]; subst. inversion Hf3 as [|? ? ? Hf4]; subst.
  inversion Hf4; subst. repeat (constructor; [done|]). constructor.
Qed.

Lemma persistent_lines_spec lines (in_persistent : bool) (persistent : gset string) :
  persistent_lines lines in_persistent persistent
  = (persistent ∪ list_to_set
       (persistent_destinations_of (persistent_section_from in_persistent lines)),
     Ok ()).
Proof.
  revert in_persistent persistent.
  induction lines as [|line lines IH]; intros b acc.
  { destruct b; cbn; f_equal; by rewrite (right_id_L ∅ (∪)). }
  cbn [persistent_lines].
  assert (∀ rest, persistent_row_ok line = false →
            persistent_destinations_of (line :: rest) = persistent_destinations_of rest)
    as Hskip.
  { intros rest Hno. unfold persistent_destinations_of.
    by rewrite filter_cons_False by (by rewrite Hno). }
  assert (∀ rest field0 fields, persistent_row_ok line = true →
            split_ws line = field0 :: fields →
            persistent_destinations_of (line :: rest)
            = field0 :: persistent_destinations_of rest)
    as Htake.
  { intros rest field0 fields Hyes Hs. unfold persistent_destinations_of.
    rewrite filter_cons_True by done. rewrite fmap_cons. by rewrite Hs. }
  unfold persistent_row_ok in Hskip, Htake.
  destruct (contains "Persistent Routes:" line) eqn:Hmark.
  { rewrite IH. unfold persistent_section_from. destruct b.
    - cbn [until_none]. unfold none_line. rewrite Hmark. cbn [negb andb].
      by rewrite Hskip.
    - cbn [after_persistent]. by rewrite Hmark. }
  destruct b.
  2:{ rewrite IH. unfold persistent_section_from. cbn [after_persistent].
      by rewrite Hmark. }
  unfold persistent_section_from in *. cbn [until_none]. unfold none_line.
  rewrite Hmark. cbn [negb andb] in *.
  destruct (contains "==" line) eqn:Hsep; cbn [negb andb] in *.
  { rewrite IH. by rewrite Hskip. }
  destruct (contains "None" line) eqn:Hnone.
  { f_equal. cbn. by rewrite (right_id_L ∅ (∪)). }
  rewrite split_ws_strip.
  unfold first_field_ok, validates_ipv4 in Hskip, Htake.
  destruct (split_ws line) as [|field0 fields] eqn:Hs.
  { cbn [length Nat.leb]. rewrite IH. by rewrite Hskip. }
  cbn [length Nat.leb index lookup list_lookup mbind res_bind].
  destruct (validate_ipv4 field0) as [valid|e] eqn:Hv;
    [|by rewrite validate_ipv4_dotted_quad in Hv].
  cbn [mbind res_bind].
  destruct valid; cbn [orb] in *.
  - rewrite IH, (Htake _ field0 fields) by done. f_equal. cbn.
    by rewrite (comm_L (∪) {[field0]} acc), <-(assoc_L (∪)).
  - case_bool_decide as Hz.
    + rewrite IH, (Htake _ field0 fields) by done. f_equal. cbn.
      by rewrite (comm_L (∪) {[field0]} acc), <-(assoc_L (∪)).
    + rewrite IH. by rewrite Hskip.
Qed.

Lemma persistent_destinations_quad lines (d : string) :
  d ∈ persistent_destinations_of lines → dotted_quad d = true.
Proof.
  unfold persistent_destinations_of.
  intros (line & -> & [Hok _]%list_elem_of_filter)%list_elem_of_fmap.
  unfold persistent_row_ok in Hok. apply andb_prop in Hok as [_ Hfirst].
  apply first_field_ok_quad in Hfirst as (field0 & fields & -> & Hq). done.
Qed.

(** X9. [get_persistent_routes] never raises and runs the print command
    exactly once. When that run exits with code zero, the set it returns
    holds the first field of every line that comes after the first line
    containing "Persistent Routes:" and before the first line containing
    "None" (and neither "Persistent Routes:" nor "=="), that contains neither
    "Persistent Routes:" nor "==", and whose first field validates; in every
    other case the set is empty. Every member of the set is a dotted quad. *)
Theorem get_persistent_routes_set env st :
  ∃ persistent : gset string,
    get_persistent_routes env st = (Ok persistent, ran_print st)
    ∧ persistent
      = match os_run env (length (run_calls st)) print_command with
        | Exited result =>
            if (returncode result =? 0)%Z
            then list_to_set (persistent_destinations (stdout result))
            else ∅
        | _ => ∅
        end
    ∧ ∀ d, d ∈ persistent → dotted_quad d = true.
Proof.
  eexists. split; [apply get_persistent_routes_run|].
  unfold fetched_persistent, persistent_destinations.
  destruct (os_run env (length (run_calls st)) print_command)
    as [result|msg|msg];
    [|split; [done|intros d Hd; by apply not_elem_of_empty in Hd]..].
  destruct (returncode result =? 0)%Z;
    [|split; [done|intros d Hd; by apply not_elem_of_empty in Hd]].
  rewrite persistent_lines_spec. cbn [fst]. rewrite (left_id_L ∅ (∪)).
  split; [done|]. intros d Hd.
  apply elem_of_list_to_set in Hd. by eapply persistent_destinations_quad.
Qed.

End field_facts.

(** ** Lines are pieces of the text *)

Section line_facts.
Implicit Types (s t sub line : string).

Lemma split_char_cons (a c : ascii) s :
  split (String a "") (String c s) =
  if bool_decide (c = a) then "" :: split (String a "") s
  else match split (String a "") s with
       | w :: ws => String c w :: ws
       | [] => [String c ""]
       end.
Proof.
  unfold split. cbn [split_go]. rewrite prefix_char.
  destruct (decide (a = c)) as [<-|Hne].
  - by rewrite !bool_decide_eq_true_2.
  - rewrite !bool_decide_eq_false_2 by congruence. done.
Qed.

Lemma split_char_head (a : ascii) s w ws :
  split (String a "") s = w :: ws → ∃ post, s = w +:+ post.
Proof.
  revert w ws. induction s as [|c s IH]; intros w ws.
  - intros [= <- <-]. by exists "".
  - rewrite split_char_cons. case_bool_decide.
    + intros [= <- <-]. by exists (String c s).
    + destruct (split (String a "") s) as [|w' ws'] eqn:Hs.
      { by apply split_go_nonempty in Hs. }
      intros [= <- <-]. destruct (IH _ _ eq_refl) as [post ->].
      by exists post.
Qed.

Lemma split_char_piece (a : ascii) s line :
  line ∈ split (String a "") s → ∃ pre post, s = pre +:+ line +:+ post.
Proof.
  revert line. induction s as [|c s IH]; intros line.
  - intros ->%list_elem_of_singleton. by exists "", "".
  - rewrite split_char_cons. case_bool_decide.
    + intros [->|Hin]%elem_of_cons; [by exists "", (String c s)|].
      destruct (IH _ Hin) as (pre & post & ->). by exists (String c pre), post.
    + destruct (split (String a "") s) as [|w ws] eqn:Hs.
      { by apply split_go_nonempty in Hs. }
      intros [->|Hin]%elem_of_cons.
      * destruct (split_char_head _ _ _ _ Hs) as [post ->]. by exists "", post.
      * destruct (IH line) as (pre & post & ->); [rewrite elem_of_cons; by right|].
        by exists (String c pre), post.
Qed.

Lemma prefix_app_l sub s t :
  String.prefix sub s = true → String.prefix sub (s +:+ t) = true.
Proof.
  revert s. induction sub as [|a sub IH]; intros s; [by rewrite !prefix_empty|].
  destruct s as [|c s]; [done|]. str_simpl. cbn.
  destruct (ascii_dec a c); [apply IH|done].
Qed.

Lemma contains_app_l sub s t :
  contains sub s = true → contains sub (s +:+ t) = true.
Proof.
  induction s as [|c s IH].
  - cbn. rewrite orb_false_r. destruct sub; [|done]. intros _.
    destruct t; cbn; by rewrite ?prefix_empty.
  - str_simpl. cbn [contains]. intros [H|H]%orb_prop.
    + pose proof (prefix_app_l _ (String c s) t H) as H'.
      rewrite app_String in H'. by rewrite H'.
    + rewrite (IH H). apply orb_true_r.
Qed.

Lemma contains_app_r sub s t :
  contains sub t = true → contains sub (s +:+ t) = true.
Proof.
  intros H. induction s as [|c s IH]; [done|].
  str_simpl. cbn [contains]. rewrite IH. apply orb_true_r.
Qed.

(** A line holds no text that the whole output does not hold. *)
Lemma contains_line sub s line :
  contains sub s = false → line ∈ split nl s → contains sub line = false.
Proof.
  intros Hno (pre & post & ->)%split_char_piece.
  apply not_true_is_false. intros Hline. apply not_true_iff_false in Hno.
  apply Hno, contains_app_r, contains_app_l, Hline.
Qed.

Lemma after_active_no_marker (lines : list string) :
  Forall (λ line, active_marker line = false) lines → after_active lines = [].
Proof.
  induction 1 as [|line lines Hline _ IH]; [done|]. cbn. by rewrite Hline.
Qed.

Lemma until_persistent_sublist (lines : list string) line :
  line ∈ until_persistent lines → line ∈ lines.
Proof.
  induction lines as [|l lines IH]; [done|]. cbn.
  destruct (persistent_marker l); [by intros ?%elem_of_nil|].
  rewrite !elem_of_cons. intros [->|?]; auto.
Qed.

Lemma parse_without_active_marker (output : string) :
  contains "Active Routes:" output = false → parse_route_print output = Ok [].
Proof.
  intros Hno. rewrite parse_route_print_spec. unfold expected_routes, active_section.
  rewrite after_active_no_marker; [done|].
  apply Forall_forall. intros line Hin%until_persistent_sublist.
  by eapply contains_line.
Qed.

End line_facts.

(** ** The snapshot and its views *)

Section view_facts.
Implicit Types (st : St) (env : Env).

(** X10. When the print command exits with code zero but its output does not
    contain "Active Routes:" (an empty output, or a table with translated
    headers), the parser returns no route and the refresh publishes an empty
    snapshot: the previous entries and rows are dropped. *)
Theorem refresh_routes_without_marker env st result :
  os_run env (length (run_calls st)) print_command = Exited result →
  returncode result = 0%Z →
  contains "Active Routes:" (stdout result) = false →
  parse_route_print (stdout result) = Ok []
  ∧ all_routes_data (refresh_routes env st).2 = []
  ∧ routes_tree (refresh_routes env st).2 = [].
Proof.
  intros Hrun Hrc Hno.
  pose proof (parse_without_active_marker _ Hno) as Hparse.
  split; [done|]. rewrite refresh_routes_run. unfold refreshed, refreshed_with.
  rewrite Hrun, Hrc. cbn [Z.eqb].
  rewrite parse_route_print_spec in Hparse. injection Hparse as ->.
  by destruct st.
Qed.

Lemma refresh_routes_without_marker_witness :
  parse_route_print (stdout translated_result) = Ok []
  ∧ all_routes_data (refresh_routes translated_env stale_state).2 = []
  ∧ routes_tree (refresh_routes translated_env stale_state).2 = [].
Proof.
  apply (refresh_routes_without_marker translated_env stale_state translated_result).
  - reflexivity.
  - reflexivity.
  - vm_compute. reflexivity.
Defined.

Lemma visible_all_tabs (route : gmap string string) :
  visible "all" route = true
  ∧ visible "persistent" route = bool_decide (route !! "persistent" = Some "Yes")
  ∧ visible "temporary" route = bool_decide (route !! "persistent" = Some "No").
Proof.
  unfold visible. split; [done|]. split.
  - change (bool_decide ("persistent" = "persistent")) with true.
    change (bool_decide ("persistent" = "temporary")) with false.
    cbn [andb negb]. by rewrite negb_involutive, andb_true_r.
  - change (bool_decide ("temporary" = "persistent")) with false.
    change (bool_decide ("temporary" = "temporary")) with true.
    cbn [andb negb]. by rewrite negb_involutive.
Qed.

Lemma filter_visible_all (data : list (gmap string string)) :
  filter (λ r, visible "all" r = true) data = data.
Proof.
  induction data as [|r data IH]; [done|].
  rewrite filter_cons_True by apply visible_all_tabs. by rewrite IH.
Qed.

Lemma filter_visible_count (flt value : string) (data : list (gmap string string)) :
  (∀ route, visible flt route = bool_decide (route !! "persistent" = Some value)) →
  length (visible_rows flt data)
  = length (filter (λ r : gmap string string, r !! "persistent" = Some value) data).
Proof.
  intros Hvis. unfold visible_rows. rewrite length_fmap.
  induction data as [|r data IH]; [done|].
  rewrite !filter_cons, Hvis.
  destruct (decide (r !! "persistent" = Some value)) as [Hr|Hr].
  - rewrite bool_decide_eq_true_2 by done.
    destruct (decide (true = true)); [|done]. cbn. by rewrite IH.
  - rewrite bool_decide_eq_false_2 by done.
    destruct (decide (false = true)); [done|]. done.
Qed.

Lemma tab_texts_lookup (data : list (gmap string string)) (tabs : gmap string string) :
  tab_texts data tabs !! "all" = Some ("All (" +:+ pretty (length data) +:+ ")")
  ∧ tab_texts data tabs !! "persistent"
    = Some ("Persistent (" +:+
            pretty (length (filter (λ r : gmap string string,
                                      r !! "persistent" = Some "Yes") data)) +:+ ")")
  ∧ tab_texts data tabs !! "temporary"
    = Some ("Temporary (" +:+
            pretty (length (filter (λ r : gmap string string,
                                      r !! "persistent" = Some "No") data)) +:+ ")").
Proof. unfold tab_texts. repeat split; by simplify_map_eq. Qed.

(** X11. The count written on each tab by [update_tab_counts] is the number
    of rows [switch_tab] shows when that tab is selected: all entries under
    "all", the entries whose persistence is "Yes" under "persistent", those
    whose persistence is "No" under "temporary". *)
Theorem tab_counts_match_rows st :
  tab_buttons (switch_tab "all" (update_tab_counts st).2).2 !! "all"
  = Some ("All (" +:+
          pretty (length (routes_tree (switch_tab "all" (update_tab_counts st).2).2))
          +:+ ")")
  ∧ tab_buttons (switch_tab "persistent" (update_tab_counts st).2).2 !! "persistent"
    = Some ("Persistent (" +:+
            pretty (length (routes_tree
                              (switch_tab "persistent" (update_tab_counts st).2).2))
            +:+ ")")
  ∧ tab_buttons (switch_tab "temporary" (update_tab_counts st).2).2 !! "temporary"
    = Some ("Temporary (" +:+
            pretty (length (routes_tree
                              (switch_tab "temporary" (update_tab_counts st).2).2))
            +:+ ")").
Proof.
  rewrite update_tab_counts_run, !switch_tab_run. cbn [snd].
  destruct (tab_texts_lookup (all_routes_data st) (tab_buttons st)) as (Ha & Hp & Ht).
  repeat split.
  - replace (length (routes_tree _)) with (length (all_routes_data st)).
    + by destruct st.
    + destruct st; cbn. unfold visible_rows.
      by rewrite length_fmap, filter_visible_all.
  - replace (length (routes_tree _))
      with (length (filter (λ r : gmap string string, r !! "persistent" = Some "Yes")
                      (all_routes_data st))).
    + by destruct st.
    + destruct st; cbn. symmetry. apply filter_visible_count.
      intros route. apply visible_all_tabs.
  - replace (length (routes_tree _))
      with (length (filter (λ r : gmap string string, r !! "persistent" = Some "No")
                      (all_routes_data st))).
    + by destruct st.
    + destruct st; cbn. symmetry. apply filter_visible_count.
      intros route. apply visible_all_tabs.
Qed.

(** X12. [switch_tab] rebuilds the table from the snapshot alone, whatever
    rows were shown before: under "all" there is one row per entry, in order;
    under "persistent" every row has the type PERSISTENT and under
    "temporary" the type TEMPORARY, so an entry of another persistence
    (Unknown) is listed under neither. *)
Theorem switch_tab_rows (tab_id : string) st :
  routes_tree (switch_tab tab_id st).2 = visible_rows tab_id (all_routes_data st)
  ∧ routes_tree (switch_tab "all" st).2 = tree_row <$> all_routes_data st
  ∧ (∀ row, row ∈ routes_tree (switch_tab "persistent" st).2 →
       row !! 5 = Some "PERSISTENT")
  ∧ (∀ row, row ∈ routes_tree (switch_tab "temporary" st).2 →
       row !! 5 = Some "TEMPORARY").
Proof.
  rewrite !switch_tab_run. cbn [snd].
  split; [by destruct st|]. split; [|split].
  - destruct st; cbn. unfold visible_rows. by rewrite filter_visible_all.
  - intros row Hrow. destruct st; cbn in Hrow. unfold visible_rows in Hrow.
    apply list_elem_of_fmap in Hrow as (route & -> & [Hvis _]%list_elem_of_filter).
    destruct (visible_all_tabs route) as (_ & Hp & _). rewrite Hp in Hvis.
    apply bool_decide_eq_true_1 in Hvis. unfold tree_row, default_get.
    by rewrite Hvis.
  - intros row Hrow. destruct st; cbn in Hrow. unfold visible_rows in Hrow.
    apply list_elem_of_fmap in Hrow as (route & -> & [Hvis _]%list_elem_of_filter).
    destruct (visible_all_tabs route) as (_ & _ & Ht). rewrite Ht in Hvis.
    apply bool_decide_eq_true_1 in Hvis. unfold tree_row, default_get.
    by rewrite Hvis.
Qed.

Lemma tree_row_snapshot (P : gset string) (route : gmap string string) :
  tree_row (snapshot_entry P route) = display_row P route.
Proof.
  transitivity
    [default_get route "destination" ""; default_get route "netmask" "";
     default_get route "gateway" ""; default_get route "interface" "";
     default_get route "metric" "";
     type_display (classify P (default_get route "destination" ""))];
    [reflexivity|].
  unfold display_row. cbv zeta. do 5 f_equal.
  unfold classify, type_display.
  destruct (bool_decide (default_get route "destination" "" ∈ P)); [done|].
  by destruct (bool_decide (default_get route "destination" "" ∈ well_known)).
Qed.

(** X13. After a refresh whose fetch succeeded, with the tab "all"
    selected, the table shows one row per parsed route, in order, with the
    five parsed fields and a type that is PERSISTENT when the destination is
    in the set fetched in the same cycle, SYSTEM when it is not and is one of
    the five well-known destinations, and TEMPORARY otherwise. *)
Theorem refresh_routes_rows env st result :
  os_run env (length (run_calls st)) print_command = Exited result →
  returncode result = 0%Z →
  current_filter st = "all" →
  ∃ routes persistent_routes,
    parse_route_print (stdout result) = Ok routes
    ∧ (get_persistent_routes env (ran_print st)).1 = Ok persistent_routes
    ∧ routes_tree (refresh_routes env st).2 = display_row persistent_routes <$> routes.
Proof.
  intros Hrun Hrc Hflt. eexists _, _.
  split; [apply parse_route_print_spec|].
  rewrite get_persistent_routes_run, ran_print_calls. split; [done|].
  rewrite refresh_routes_run. unfold refreshed, refreshed_with.
  rewrite Hrun, Hrc. cbn [Z.eqb]. unfold published.
  replace (routes_tree _) with
    (visible_rows (current_filter st)
       (snapshot_entry
          (fetched_persistent (os_run env (S (length (run_calls st))) print_command))
          <$> expected_routes (stdout result))) by by destruct st.
  rewrite Hflt. unfold visible_rows.
  rewrite filter_visible_all.
  rewrite <-list_fmap_compose. apply list_fmap_ext. intros i route _.
  apply tree_row_snapshot.
Qed.

Lemma refresh_routes_rows_witness :
  ∃ routes persistent_routes,
    parse_route_print (stdout sample_result) = Ok routes
    ∧ (get_persistent_routes sample_env (ran_print initial_state)).1
      = Ok persistent_routes
    ∧ routes_tree (refresh_routes sample_env initial_state).2
      = display_row persistent_routes <$> routes.
Proof.
  exact (refresh_routes_rows sample_env initial_state sample_result
           eq_refl eq_refl eq_refl).
Defined.

End view_facts.

(** ** Masks are prefix lengths *)

Section cidr_facts.

Lemma byte_bits_value (v : Z) : (0 ≤ v ≤ 255)%Z → bits_value (byte_bits v) = v.
Proof.
  intros Hv.
  assert (forallb (λ k : nat, bool_decide
            (bits_value (byte_bits (Z.of_nat k)) = Z.of_nat k)) (seq 0 256) = true)
    as Hall by (vm_compute; reflexivity).
  rewrite forallb_forall in Hall.
  assert (In (Z.to_nat v) (seq 0 256)) as Hin by (apply in_seq; lia).
  apply Hall, bool_decide_eq_true_1 in Hin. by rewrite Z2Nat.id in Hin by lia.
Qed.

Lemma byte_bits_length (v : Z) : length (byte_bits v) = 8.
Proof. reflexivity. Qed.

(** The bits of the mask with [k] leading ones, cut in four groups of 8,
    write the octets [cidr_octets k]; and those octets expand to a run. *)
Lemma cidr_runs (k : nat) :
  k ≤ 32 →
  let run := replicate k true ++ replicate (32 - k) false in
  [bits_value (take 8 run); bits_value (take 8 (drop 8 run));
   bits_value (take 8 (drop 16 run)); bits_value (take 8 (drop 24 run))]
  = cidr_octets k
  ∧ ones_then_zeros (mjoin (byte_bits <$> cidr_octets k)) = true.
Proof.
  intros Hk.
  assert (forallb (λ k : nat,
            let run := replicate k true ++ replicate (32 - k) false in
            bool_decide
              ([bits_value (take 8 run); bits_value (take 8 (drop 8 run));
                bits_value (take 8 (drop 16 run)); bits_value (take 8 (drop 24 run))]
               = cidr_octets k)
            && ones_then_zeros (mjoin (byte_bits <$> cidr_octets k)))
            (seq 0 33) = true) as Hall by (vm_compute; reflexivity).
  rewrite forallb_forall in Hall.
  assert (In k (seq 0 33)) as Hin by (apply in_seq; lia).
  apply Hall in Hin. cbv zeta in Hin.
  apply andb_prop in Hin as [H1%bool_decide_eq_true_1 H2]. done.
Qed.

Lemma four_bytes_of_run (a b c d : Z) (run : list bool) :
  byte_bits a ++ byte_bits b ++ byte_bits c ++ byte_bits d ++ [] = run →
  byte_bits a = take 8 run ∧ byte_bits b = take 8 (drop 8 run)
  ∧ byte_bits c = take 8 (drop 16 run) ∧ byte_bits d = take 8 (drop 24 run).
Proof. intros <-. repeat split. Qed.

(** An accepted mask is a dotted quad whose octets are those of a prefix
    length. *)
Lemma accepted_mask_octets (s : string) :
  validate_subnet_mask s = Ok true →
  dotted_quad (strip s) = true
  ∧ ∃ k, k ≤ 32 ∧ decimal_value <$> split "." (strip s) = cidr_octets k.
Proof.
  rewrite validate_subnet_mask_decides.
  intros [= [Hq Hrun]%andb_prop]. split; [done|].
  pose proof (mask_bits_length s Hq) as Hlen.
  apply ones_then_zeros_run in Hrun as (k & Hk & Hrun). rewrite Hlen in *.
  exists k. split; [done|].
  destruct (dotted_quad_groups _ Hq) as [Hgroups Hfour].
  unfold mask_bits in Hrun.
  destruct (split "." (strip s)) as [|a [|b [|c [|d [|]]]]]; try done.
  cbn in Hrun. apply four_bytes_of_run in Hrun as (Ha & Hb & Hc & Hd).
  destruct (cidr_runs k Hk) as [<- _]. cbv zeta.
  rewrite <-Ha, <-Hb, <-Hc, <-Hd.
  inversion Hgroups as [|? ? [_ ?]%octet_group_range Hg1]; subst.
  inversion Hg1 as [|? ? [_ ?]%octet_group_range Hg2]; subst.
  inversion Hg2 as [|? ? [_ ?]%octet_group_range Hg3]; subst.
  inversion Hg3 as [|? ? [_ ?]%octet_group_range _]; subst.
  cbn [fmap list_fmap]. by rewrite !byte_bits_value.
Qed.

(** X14. [validate_subnet_mask] accepts exactly the prefix-length masks: it
    returns [True] if and only if the stripped argument is a dotted quad
    whose four octets are those of [2^32 - 2^(32-k)] for some [k] from 0 to
    32. *)
Theorem validate_subnet_mask_prefix_lengths (s : string) :
  validate_subnet_mask s = Ok true
  ↔ dotted_quad (strip s) = true
    ∧ ∃ k, k ≤ 32 ∧ decimal_value <$> split "." (strip s) = cidr_octets k.
Proof.
  split; [apply accepted_mask_octets|].
  rewrite validate_subnet_mask_decides.
  intros (Hq & k & Hk & Hoct). do 2 f_equal. rewrite Hq. cbn [andb].
  unfold mask_bits. rewrite list_fmap_compose, Hoct.
  by destruct (cidr_runs k Hk) as [_ ->].
Qed.

End cidr_facts.

(** ** Interface names *)

Section interface_facts.
Implicit Types (name address s sep : string).

Lemma split_without_separator sep s :
  contains sep s = false → split sep s = [s].
Proof.
  unfold split. induction s as [|c s IH]; [done|].
  cbn [contains split_go].
  intros [Hp Hc]%orb_false_elim. rewrite Hp, IH by done. done.
Qed.

Lemma split_paren_head name (rest : string) :
  contains " (" name = false →
  ∃ pieces, split " (" (name +:+ " (" +:+ rest) = name :: pieces.
Proof.
  unfold split. induction name as [|c name IH].
  - intros _. str_simpl. cbn [split_go]. cbn. rewrite prefix_empty. eauto.
  - cbn [contains]. intros [Hp Hc]%orb_false_elim. str_simpl.
    cbn [split_go].
    assert (String.prefix " (" (String c (name +:+ String " " (String "(" rest)))
            = false) as ->.
    { destruct name as [|d name]; str_simpl.
      - cbn [String.prefix]. destruct (ascii_dec " " c); [|done].
        by destruct (ascii_dec "(" " ").
      - cbn [String.prefix] in *. destruct (ascii_dec " " c); [|done].
        destruct (ascii_dec "(" d); [|done]. by rewrite prefix_empty in Hp. }
    destruct (IH Hc) as [pieces Hs]. str_simpl. rewrite Hs. eauto.
Qed.

(** X15. The interface name stored in a ledger record is the name shown in
    the dialog: for an interface whose name does not contain [" ("], the text
    built for the list, with or without an address, gives the name back when
    [do_add] cuts it at the first [" ("]. *)
Theorem interface_name_round_trip name (ipv4 : string) form :
  contains " (" name = false →
  truthy (interface_display name ipv4) = true →
  interface_var form = interface_display name ipv4 →
  iface_name_of form = name.
Proof.
  intros Hname Hshown Hvar. unfold iface_name_of. rewrite Hvar, Hshown.
  unfold interface_display in *. destruct (truthy ipv4).
  - destruct (split_paren_head name (ipv4 +:+ ")") Hname) as [pieces Hs].
    by rewrite Hs.
  - rewrite app_empty_r. by rewrite split_without_separator.
Qed.

Lemma interface_name_round_trip_witness : iface_name_of sample_form = "Ethernet".
Proof.
  apply (interface_name_round_trip "Ethernet" "192.168.1.50" sample_form);
    reflexivity.
Defined.

End interface_facts.

(** ** Automatic refresh *)

Section poller_facts.
Implicit Types (env : Env) (p : Poller).

Lemma auto_refresh_tick_ok env p :
  auto_refresh_enabled p = true → scheduled p = [] →
  poller_ok (auto_refresh_tick env p).2.
Proof.
  intros Hen Hsch. unfold auto_refresh_tick. rewrite Hen, refresh_routes_run.
  cbn. unfold poller_ok. cbn. rewrite Hsch. split; [done|]. split; eauto.
Qed.

Lemma poll_step_ok env p (ev : poll_event) :
  poller_ok p → poller_ok (poll_step env p ev).
Proof.
  intros [Hsch Hen]. destruct ev as [var|id|]; cbn [poll_step].
  - unfold toggle_auto_refresh. destruct var.
    + unfold start_auto_refresh. cbn [auto_refresh_enabled auto_refresh_job andb].
      case_bool_decide as Hjob.
      * apply auto_refresh_tick_ok; [done|]. cbn. by rewrite Hsch, Hjob.
      * unfold poller_ok. cbn. split; [done|]. split; [|done]. intros _.
        by destruct (auto_refresh_job p).
    + unfold stop_auto_refresh. cbn [auto_refresh_job].
      destruct (auto_refresh_job p) as [job|] eqn:Hjob; unfold poller_ok; cbn.
      * rewrite Hsch. cbn. rewrite decide_False by (by intros ?).
        split; [done|]. split; [done|]. by intros [? ?].
      * split; [done|]. split; [done|]. by intros [? ?].
  - unfold timer_fires. case_bool_decide as Hin; [|done].
    rewrite Hsch in Hin. destruct (auto_refresh_job p) as [job|] eqn:Hjob;
      [|by apply elem_of_nil in Hin].
    apply list_elem_of_singleton in Hin as ->.
    apply auto_refresh_tick_ok; cbn.
    + apply Hen. eauto.
    + rewrite Hsch. cbn. by rewrite decide_False by (by intros ?).
  - done.
Qed.

Lemma poller_init_ok env (st : St) : poller_ok (poller_init env st).
Proof. by apply auto_refresh_tick_ok. Qed.

(** X16. Automatic refresh never runs twice in parallel: from the end of
    [__init__] on, after any sequence of toggles of the check box, timer
    callbacks and manual refreshes, exactly one callback of
    [auto_refresh_tick] is registered while automatic refresh is enabled, it
    is the one [auto_refresh_job] holds, and none is registered while it is
    disabled. *)
Theorem auto_refresh_single_timer env (st : St) (events : list poll_event) :
  scheduled (foldl (poll_step env) (poller_init env st) events)
  = option_list (auto_refresh_job (foldl (poll_step env) (poller_init env st) events))
  ∧ (auto_refresh_enabled (foldl (poll_step env) (poller_init env st) events) = true →
     ∃ job, scheduled (foldl (poll_step env) (poller_init env st) events) = [job])
  ∧ (auto_refresh_enabled (foldl (poll_step env) (poller_init env st) events) = false →
     scheduled (foldl (poll_step env) (poller_init env st) events) = []).
Proof.
  assert (poller_ok (foldl (poll_step env) (poller_init env st) events)) as [Hsch Hen].
  { generalize (poller_init_ok env st). generalize (poller_init env st).
    induction events as [|ev events IH]; intros p Hp; [done|].
    cbn [foldl]. by apply IH, poll_step_ok. }
  split; [done|]. rewrite Hsch. split.
  - intros [job ->]%Hen. by exists job.
  - intros Hoff. destruct (auto_refresh_job _) as [job|] eqn:Hjob; [|done].
    assert (auto_refresh_enabled
              (foldl (poll_step env) (poller_init env st) events) = true)
      by (apply Hen; eauto).
    congruence.
Qed.

End poller_facts.

(** ** Interface discovery with netsh *)

Section netsh_facts.
Implicit Types (env : Env) (st : St) (line : string).





(** The first interface of the usual output is on the third line once the
    leading empty line is stripped, and is not read. *)
Example discover_interfaces_netsh_example :
  (discover_interfaces_netsh netsh_env initial_state).1
  = Ok [list_to_map [("index", "12"); ("name", "Ethernet");
                     ("state", "connected"); ("ipv4", "")];
        list_to_map [("index", "17"); ("name", "disconnected");
                     ("state", "disconnected"); ("ipv4", "")]].
Proof. vm_compute. reflexivity. Qed.

End netsh_facts.

(** ** The commands the gateway runs *)

Section command_facts.
Implicit Types (st : St) (env : Env) (form : AddForm).

Lemma add_command_shape form :
  add_command form
  = (if persistent_var form then ["route"; "-p"; "add"] else ["route"; "add"])
    ++ [strip (entry_dest form); "mask"; strip (entry_mask form);
        strip (entry_gateway form)]
    ++ (if truthy (selected_interface_index form)
        then ["IF"; selected_interface_index form] else []).
Proof.
  unfold add_command.
  by destruct (persistent_var form), (truthy (selected_interface_index form)).
Qed.

Lemma add_accepted_quads env form st :
  add_accepted env form st →
  dotted_quad (strip (entry_dest form)) = true
  ∧ dotted_quad (strip (entry_mask form)) = true
  ∧ (∃ k, k ≤ 32
       ∧ decimal_value <$> split "." (strip (entry_mask form)) = cidr_octets k)
  ∧ dotted_quad (strip (entry_gateway form)) = true.
Proof.
  intros (_ & Hd & _ & Hm & _ & Hg & _).
  rewrite validate_ipv4_dotted_quad, strip_idemp in Hd, Hg.
  apply accepted_mask_octets in Hm as [Hm Hk].
  rewrite strip_idemp in Hm, Hk.
  injection Hd as Hd. injection Hg as Hg. done.
Qed.

(** X18. Whatever the form, the environment and the state, [do_add] runs
    either no command at all, or one add command followed only by the print
    commands of the refresh. The add command is [route], [-p] for a
    persistent route, [add], the destination, [mask], the mask, the gateway
    and, when an interface index is selected, [IF] and the index; the
    destination, the mask and the gateway it carries are the stripped fields
    of the form, each a dotted quad, and the mask is a prefix-length mask. *)
Theorem do_add_runs_validated_command env form st :
  ∃ calls,
    run_calls (do_add env form st).2 = run_calls st ++ calls
    ∧ (calls = []
       ∨ ∃ more,
           calls = add_command form :: more
           ∧ Forall (λ cmd, cmd = print_command) more
           ∧ add_command form
             = (if persistent_var form then ["route"; "-p"; "add"]
                else ["route"; "add"])
               ++ [strip (entry_dest form); "mask"; strip (entry_mask form);
                   strip (entry_gateway form)]
               ++ (if truthy (selected_interface_index form)
                   then ["IF"; selected_interface_index form] else [])
           ∧ dotted_quad (strip (entry_dest form)) = true
           ∧ dotted_quad (strip (entry_mask form)) = true
           ∧ (∃ k, k ≤ 32
                ∧ decimal_value <$> split "." (strip (entry_mask form))
                  = cidr_octets k)
           ∧ dotted_quad (strip (entry_gateway form)) = true).
Proof.
  rewrite do_add_run. cbn [snd]. unfold add_state.
  destruct (add_refusal env form st) as [events|] eqn:Href.
  { exists []. rewrite app_nil_r. split; [by destruct st|by left]. }
  apply add_refusal_None in Href as Hacc.
  pose proof (add_accepted_quads _ _ _ Hacc) as Hquads.
  pose proof (add_command_shape form) as Hshape.
  assert (∀ s more,
            run_calls s = run_calls st ++ add_command form :: more →
            Forall (λ cmd, cmd = print_command) more →
            ∃ calls, run_calls s = run_calls st ++ calls
              ∧ (calls = []
                 ∨ ∃ more,
                     calls = add_command form :: more
                     ∧ Forall (λ cmd, cmd = print_command) more
                     ∧ add_command form
                       = (if persistent_var form then ["route"; "-p"; "add"]
                          else ["route"; "add"])
                         ++ [strip (entry_dest form); "mask";
                             strip (entry_mask form); strip (entry_gateway form)]
                         ++ (if truthy (selected_interface_index form)
                             then ["IF"; selected_interface_index form] else [])
                     ∧ dotted_quad (strip (entry_dest form)) = true
                     ∧ dotted_quad (strip (entry_mask form)) = true
                     ∧ (∃ k, k ≤ 32
                          ∧ decimal_value <$> split "." (strip (entry_mask form))
                            = cidr_octets k)
                     ∧ dotted_quad (strip (entry_gateway form)) = true)) as Hone.
  { intros s more Hs Hmore. exists (add_command form :: more).
    split; [done|]. right. exists more. by repeat split; try apply Hquads. }
  destruct (os_run env (length (run_calls st)) (add_command form))
    as [result|msg|msg];
    [|apply (Hone _ []); [by destruct st|constructor]..].
  unfold add_exited.
  destruct (failure_text (file_op env (file_ops st) LOG_FILE));
    [apply (Hone _ []); [by destruct st|constructor]|].
  destruct (returncode result =? 0)%Z;
    [|apply (Hone _ []); [by destruct st|constructor]].
  destruct (failure_text (file_op env (S (file_ops st)) ADDED_ROUTES_FILE));
    [apply (Hone _ []); [by destruct st|constructor]|].
  destruct (refreshed_calls env (add_recorded env form result st))
    as (more & Hcalls & Hmore).
  apply (Hone _ more); [|done]. rewrite Hcalls.
  destruct st; cbn. by rewrite <-app_assoc.
Qed.

End command_facts.
